(** * photomap: the metadata resolver of [exif_loader.py] and [geo_utils.py]

    A shallow embedding of the per-photo metadata resolution
    ([read_photo_meta] and the three strategies it consults) and of the
    degrees/minutes/seconds conversions.

    Conventions of the embedding.
    - Python [float] values are modelled by exact rationals [Q]: the
      arithmetic of the source ([+], [/], unary minus, [abs], [<]) is the
      rational one, division by zero raises [ZeroDivisionError] and the
      conversion of an [int] beyond the float range raises
      [OverflowError]; rounding, infinities and NaN are outside the model.
    - [Optional[T]] is [option T]; a Python [dict] read with [get] is an
      association list searched from the front.
    - Exceptions are explicit: a function body that may raise returns a
      [result]; [try: ... except Exception: ...] is [try_except].
    - What a strategy reads from the outside (the file system, the image
      libraries) is a field of a [World]. *)

From Stdlib Require Import QArith Qabs ZArith String Ascii List Bool Lia.
Import ListNotations.

Open Scope string_scope.
Open Scope Q_scope.

(** ** Exceptions *)

Inductive exn : Type :=
| ValueError
| TypeError
| IndexError
| ZeroDivisionError
| OSError
| AttributeError
| OverflowError.

Inductive result (A : Type) : Type :=
| Ok (a : A)
| Raise (e : exn).

Arguments Ok {A} a.
Arguments Raise {A} e.

Definition rbind {A B : Type} (m : result A) (f : A -> result B) : result B :=
  match m with
  | Ok a => f a
  | Raise e => Raise e
  end.

Notation "x <- m ;; k" := (rbind m (fun x => k))
  (at level 61, m at next level, right associativity).

(** [try: return body  except Exception: return None] *)
Definition try_except {A : Type} (body : result A) : option A :=
  match body with
  | Ok a => Some a
  | Raise _ => None
  end.

(** A list comprehension [[f x for x in xs]] whose element expression may
    raise: elements are evaluated from the left, the first exception ends
    the comprehension. *)
Fixpoint comprehension {A B : Type} (f : A -> result B) (xs : list A)
  : result (list B) :=
  match xs with
  | [] => Ok []
  | x :: xs' =>
      y <- f x ;;
      ys <- comprehension f xs' ;;
      Ok (y :: ys)
  end.

(** [xs[i]] *)
Definition index {A : Type} (xs : list A) (i : nat) : result A :=
  match nth_error xs i with
  | Some x => Ok x
  | None => Raise IndexError
  end.

(** [n / d] on floats *)
Definition truediv (n d : Q) : result Q :=
  if Qeq_bool d 0 then Raise ZeroDivisionError else Ok (n / d).

Definition Qlt_bool (x y : Q) : bool := negb (Qle_bool y x).

(** ** Strings *)

(** [c in s] for a one-character [c] *)
Fixpoint contains (c : ascii) (s : string) : bool :=
  match s with
  | EmptyString => false
  | String a s' => Ascii.eqb a c || contains c s'
  end.

(** [s.split(c)] for a one-character separator *)
Fixpoint split (c : ascii) (s : string) : list string :=
  match s with
  | EmptyString => [EmptyString]
  | String a s' =>
      if Ascii.eqb a c then EmptyString :: split c s'
      else match split c s' with
           | [] => [String a EmptyString]
           | hd :: tl => String a hd :: tl
           end
  end.

(** [s.rfind(c)], [None] for Python's -1 *)
Fixpoint rfind (c : ascii) (s : string) : option nat :=
  match s with
  | EmptyString => None
  | String a s' =>
      match rfind c s' with
      | Some i => Some (S i)
      | None => if Ascii.eqb a c then Some O else None
      end
  end.

Definition is_space (a : ascii) : bool :=
  let n := nat_of_ascii a in
  (Nat.eqb n 32 || (Nat.leb 9 n && Nat.leb n 13) || (Nat.leb 28 n && Nat.leb n 31))%bool.

Fixpoint lstrip (s : string) : string :=
  match s with
  | EmptyString => EmptyString
  | String a s' => if is_space a then lstrip s' else s
  end.

Fixpoint rstrip (s : string) : string :=
  match s with
  | EmptyString => EmptyString
  | String a s' =>
      match rstrip s' with
      | EmptyString => if is_space a then EmptyString else String a EmptyString
      | r => String a r
      end
  end.

(** [s.strip()] *)
Definition strip (s : string) : string := rstrip (lstrip s).

(** [s or None] *)
Definition or_None (s : string) : option string :=
  match s with
  | EmptyString => None
  | _ => Some s
  end.

(** [d.get(key)] on a dict kept as an association list *)
Fixpoint get {V : Type} (d : list (string * V)) (key : string) : option V :=
  match d with
  | [] => None
  | (k, v) :: d' => if String.eqb k key then Some v else get d' key
  end.

(** ** geo_utils.py *)

(** [ref in ("S", "W")] *)
Definition ref_in_SW (ref : option string) : bool :=
  match ref with
  | Some r => String.eqb r "S" || String.eqb r "W"
  | None => false
  end.

Definition dms_to_decimal_body (dms : list (Q * Q)) (ref : option string)
  : result Q :=
  d <- comprehension (fun nd => truediv (fst nd) (snd nd)) dms ;;
  d0 <- index d 0 ;;
  d1 <- index d 1 ;;
  d2 <- index d 2 ;;
  let deg := d0 + d1 / 60 + d2 / 3600 in
  let deg := if ref_in_SW ref then - deg else deg in
  Ok deg.

Definition dms_to_decimal (dms : list (Q * Q)) (ref : option string)
  : option Q :=
  try_except (dms_to_decimal_body dms ref).

(** ** types_.py *)

(** [pathlib.Path], as far as the resolver looks at it: the final component
    [name] and whatever precedes it. [Path(".")], [Path("")] and [Path("/")]
    have an empty [name]. *)
Record Path : Type := mkPath { parent : string; name : string }.

Module PhotoMeta.
Record t : Type := mk {
  path : Path;
  lat : option Q;
  lon : option Q;
  datetime : option string;
  make : option string;
  model : option string;
  extra : list (string * string)
}.
End PhotoMeta.

(** ** pathlib *)

(** [path.suffix]: [name[i:]] for [i = name.rfind(".")] when
    [0 < i < len(name) - 1], else the empty string. *)
Definition suffix (p : Path) : string :=
  match rfind "." (name p) with
  | Some i =>
      if (Nat.ltb 0 i && Nat.ltb i (String.length (name p) - 1))%bool
      then substring i (String.length (name p) - i) (name p)
      else ""
  | None => ""
  end.

(** [path.with_suffix(suffix)]. pathlib raises [ValueError] for a path with
    an empty name. (It also rejects a suffix that contains a separator or
    does not start with a dot; the two suffixes the resolver passes,
    [path.suffix + ".json"] and [".json"], are never of that kind.) *)
Definition with_suffix (p : Path) (suffix' : string) : result Path :=
  if String.eqb (name p) "" then Raise ValueError
  else
    let old_suffix := suffix p in
    let name' :=
      if String.eqb old_suffix "" then name p ++ suffix'
      else substring 0 (String.length (name p) - String.length old_suffix)
             (name p) ++ suffix'
    in
    Ok (mkPath (parent p) name').

(** ** What the resolver reads from outside *)

(** An [exifread] tag: [str(tag)] and [[str(x) for x in tag.values]]. *)
Record IfdTag : Type := mkTag { printable : string; values : list string }.

Definition Tags : Type := list (string * IfdTag).

(** A decoded JSON document, as [json.loads] returns it: [null] is [None],
    a number written as an integer is a Python [int] ([JInt]), any other
    number is a [float] ([JNum]). *)
#[warnings="-register-all"]
Inductive json : Type :=
| JNull
| JBool (b : bool)
| JInt (z : Z)
| JNum (q : Q)
| JStr (s : string)
| JArr (l : list json)
| JObj (d : list (string * json)).

(** The GPS sub-dictionary of Pillow's EXIF data after the [GPSTAGS]
    renaming, restricted to the keys [_pillow_extract] reads, with values of
    the types [dms_to_decimal] is annotated with. *)
Record GpsData : Type := mkGps {
  GPSLatitude : option (list (Q * Q));
  GPSLatitudeRef : option string;
  GPSLongitude : option (list (Q * Q));
  GPSLongitudeRef : option string;
  GPSAltitude : option (Q * Q)
}.

(** Pillow's EXIF data after the [TAGS] renaming, restricted to the keys
    [_pillow_extract] reads. *)
(** The value of [data.get("GPSInfo", {})]: missing or falsy, a non-empty
    dictionary, or a truthy value that is no dictionary (the offset of the
    GPS directory, an [int], is one). *)
Inductive GpsInfoValue : Type :=
| GpsAbsent
| GpsDict (g : GpsData)
| GpsNotDict.

Record PilExif : Type := mkExif {
  GPSInfo : GpsInfoValue;
  DateTimeOriginal : option string;
  DateTime : option string;
  Make : option string;
  Model : option string
}.

Record World : Type := mkWorld {
  (** [exifread.process_file(f, details=False)] on the opened file *)
  exifread_process_file : Path -> result Tags;
  (** [c.exists()]: [False] for a missing file; pathlib lets any other
      [OSError] of the underlying [stat] through (a name that is too long,
      a directory that may not be searched) *)
  fs_exists : Path -> result bool;
  (** [json.loads(c.read_text(encoding="utf-8"))] *)
  fs_load_json : Path -> result json;
  (** [Image.open(path)] followed by [img.getexif()] *)
  pil_getexif : Path -> result PilExif
}.

(** A path with an empty final component is the current directory or a
    root: opening it as a file raises ([IsADirectoryError]). *)
Definition open_file {A : Type} (p : Path) (read : Path -> result A)
  : result A :=
  if String.eqb (name p) "" then Raise OSError else read p.

(** ** The strategy log *)

Inductive strategy : Type := Exifread | Sidecar | Pillow.

(** A computation that records which strategies it invoked and may raise. *)
Definition M (A : Type) : Type := (list strategy * result A)%type.

Definition mret {A : Type} (a : A) : M A := ([], Ok a).

Definition mbind {A B : Type} (m : M A) (f : A -> M B) : M B :=
  match m with
  | (l, Ok a) => let '(l', r) := f a in ((l ++ l')%list, r)
  | (l, Raise e) => (l, Raise e)
  end.

Notation "x <~ m ;; k" := (mbind m (fun x => k))
  (at level 61, m at next level, right associativity).

(** Calling strategy [s], whose outcome is [r]. *)
Definition invoke {A : Type} (s : strategy) (r : result A) : M A := ([s], r).

Definition invoked {A : Type} (s : strategy) (m : M A) : Prop := In s (fst m).

Definition outcome {A : Type} (m : M A) : result A := snd m.

Definition is_None {A : Type} (o : option A) : bool :=
  match o with
  | None => true
  | Some _ => false
  end.

(** ** geo_utils.py: bounds *)

(** [min(xs)] and [max(xs)]: the first smallest (largest) element; an empty
    list raises [ValueError]. *)
Fixpoint min_from (m : Q) (xs : list Q) : Q :=
  match xs with
  | [] => m
  | x :: xs' => min_from (if Qlt_bool x m then x else m) xs'
  end.

Fixpoint max_from (m : Q) (xs : list Q) : Q :=
  match xs with
  | [] => m
  | x :: xs' => max_from (if Qlt_bool m x then x else m) xs'
  end.

Definition py_min (xs : list Q) : result Q :=
  match xs with
  | [] => Raise ValueError
  | x :: xs' => Ok (min_from x xs')
  end.

Definition py_max (xs : list Q) : result Q :=
  match xs with
  | [] => Raise ValueError
  | x :: xs' => Ok (max_from x xs')
  end.

Definition bounds_from_points (points : list (Q * Q))
  : result (option (Q * Q * Q * Q)) :=
  match points with
  | [] => Ok None
  | _ =>
      let lats := map fst points in
      let lons := map snd points in
      min_lat <- py_min lats ;;
      min_lon <- py_min lons ;;
      max_lat <- py_max lats ;;
      max_lon <- py_max lons ;;
      Ok (Some (min_lat, min_lon, max_lat, max_lon))
  end.

(** ** config.py *)

Definition allowed_exts : list string :=
  [".jpg"; ".jpeg"; ".png"; ".heic"; ".heif"].

(** ** main.py: the directory scan *)

(** [s.lower()] on ASCII letters *)
Definition lower_ascii (a : ascii) : ascii :=
  let n := nat_of_ascii a in
  if (Nat.leb 65 n && Nat.leb n 90)%bool then ascii_of_nat (n + 32) else a.

Fixpoint lower (s : string) : string :=
  match s with
  | EmptyString => EmptyString
  | String a s' => String (lower_ascii a) (lower s')
  end.

(** [x in exts] *)
Definition in_exts (x : string) (exts : list string) : bool :=
  existsb (String.eqb x) exts.

(** [p.is_file() and p.suffix.lower() in allowed_exts] *)
Definition is_image (is_file : Path -> bool) (exts : list string) (p : Path)
  : bool :=
  (is_file p && in_exts (lower (suffix p)) exts)%bool.

(** The loop of the generator [scan_images] over the entries [it] of the
    directory iterator, as the list of the paths it yields; [count] is the
    number of paths yielded so far. *)
Fixpoint scan_loop (is_file : Path -> bool) (exts : list string)
    (limit : Z) (it : list Path) (count : Z) : list Path :=
  match it with
  | [] => []
  | p :: rest =>
      if is_image is_file exts p then
        let count := (count + 1)%Z in
        p :: (if (negb (Z.eqb limit 0) && Z.geb count limit)%bool then []
              else scan_loop is_file exts limit rest count)
      else scan_loop is_file exts limit rest count
  end.

(** [rglob] and [glob] are the entries of [images_dir.rglob("*")] and of
    [images_dir.glob("*")]. *)
Definition scan_images (is_file : Path -> bool) (rglob glob : list Path)
    (exts : list string) (recurse : bool) (limit : Z) : list Path :=
  let it := if recurse then rglob else glob in
  scan_loop is_file exts limit it 0.

(** ** data_store.py *)

Module PhotoRepository.

Record t : Type := mk { _items : list PhotoMeta.t; _skipped : list Path }.

Definition init : t := mk [] [].

Definition add (self : t) (meta : PhotoMeta.t) : t :=
  mk (_items self ++ [meta])%list (_skipped self).

Definition skip (self : t) (path : Path) : t :=
  mk (_items self) (_skipped self ++ [path])%list.

Definition items (self : t) : list PhotoMeta.t := _items self.

(** [m.lat is not None and m.lon is not None] *)
Definition has_gps (m : PhotoMeta.t) : bool :=
  (negb (is_None (PhotoMeta.lat m)) && negb (is_None (PhotoMeta.lon m)))%bool.

Definition points (self : t) : list (Q * Q) :=
  flat_map (fun m =>
              match PhotoMeta.lat m, PhotoMeta.lon m with
              | Some lat, Some lon => [(lat, lon)]
              | _, _ => []
              end)
           (_items self).

End PhotoRepository.

(** [d[k] = v] for any type of values: a key already present keeps its
    place. *)
Fixpoint dict_put {V : Type} (d : list (string * V)) (k : string) (v : V)
  : list (string * V) :=
  match d with
  | [] => [(k, v)]
  | (k', v') :: d' =>
      if String.eqb k' k then (k, v) :: d' else (k', v') :: dict_put d' k v
  end.

(** A dict display [{k1: v1, ..., **d, ...}], entries taken from the left. *)
Definition dict_display {V : Type} (entries : list (string * V))
  : list (string * V) :=
  fold_left (fun d kv => dict_put d (fst kv) (snd kv)) entries [].

Definition path_eqb (p q : Path) : bool :=
  (String.eqb (parent p) (parent q) && String.eqb (name p) (name q))%bool.

(** [thumbs.get(path) if thumbs else None] *)
Definition thumb_for (thumbs : option (list (Path * string))) (p : Path)
  : option string :=
  match thumbs with
  | Some ((_ :: _) as d) =>
      match find (fun kv => path_eqb (fst kv) p) d with
      | Some kv => Some (snd kv)
      | None => None
      end
  | _ => None
  end.

(** One element of [features] in [to_geojson]: the coordinates of the
    geometry and the properties. *)
Record Feature : Type := mkFeature {
  coordinates : list Q;
  properties : list (string * option string)
}.

(** The properties of the feature of [m]. *)
Definition props_of (m : PhotoMeta.t) (thumb_rel img_rel : option string)
  : list (string * option string) :=
  dict_display
    ([("path", Some (name (PhotoMeta.path m)));
      ("datetime", PhotoMeta.datetime m);
      ("make", PhotoMeta.make m);
      ("model", PhotoMeta.model m)]
     ++ map (fun kv => (fst kv, Some (snd kv))) (PhotoMeta.extra m)
     ++ [("thumb", thumb_rel); ("img_rel", img_rel)])%list.

(** The list [features] that [to_geojson] builds before it writes the
    file. [img_rel_of out_html_path file] stands for
    [_safe_rel(out_html_path.parent, file)], which rests on
    [os.path.relpath]. *)
Definition to_geojson_features (img_rel_of : Path -> Path -> option string)
    (self : PhotoRepository.t) (out_html_path : Path)
    (thumbs : option (list (Path * string))) : list Feature :=
  flat_map (fun m =>
              match PhotoMeta.lat m, PhotoMeta.lon m with
              | Some lat, Some lon =>
                  let thumb_rel := thumb_for thumbs (PhotoMeta.path m) in
                  let img_rel := img_rel_of out_html_path (PhotoMeta.path m) in
                  [mkFeature [lon; lat] (props_of m thumb_rel img_rel)]
              | _, _ => []
              end)
           (PhotoRepository._items self).

(** [[m.path for m in repo.items() if m.lat is not None and m.lon is not None]] *)
Definition gps_paths (r : PhotoRepository.t) : list Path :=
  map PhotoMeta.path (filter PhotoRepository.has_gps (PhotoRepository.items r)).

(** ** exif_loader.py *)

Section ExifLoader.

(** Python's conversions between strings and numbers are taken as given:
    [float(s)] for a string ([None] when it raises [ValueError]),
    [str(x)] for a float, and [str(v)] for a decoded JSON value. *)
Variable float_of_str : string -> option Q.
Variable str_of_float : Q -> string.
Variable str_of_json : json -> string.

(** *** Helpers for exifread *)

Definition float_str (s : string) : result Q :=
  match float_of_str s with
  | Some q => Ok q
  | None => Raise ValueError
  end.

(** The local function [to_float] of [_ratios_to_decimal], applied to
    [s = str(x)]. *)
Definition to_float (s : string) : result Q :=
  if contains "/" s then
    match split "/" s with
    | [num; den] =>
        n <- float_str num ;;
        d <- float_str den ;;
        truediv n d
    | _ => Raise ValueError
    end
  else float_str s.

Definition _ratios_to_decimal_body (parts : list string) (ref : option string)
  : result Q :=
  fs <- comprehension to_float parts ;;
  match fs with
  | [deg; minute; second] =>
      let val := deg + minute / 60 + second / 3600 in
      let val := if ref_in_SW ref then - val else val in
      Ok val
  | _ => Raise ValueError
  end.

Definition _ratios_to_decimal (parts : list string) (ref : option string)
  : option Q :=
  try_except (_ratios_to_decimal_body parts ref).

(** [str(tags.get(key, ""))] *)
Definition str_tag (tags : Tags) (key : string) : string :=
  match get tags key with
  | Some t => printable t
  | None => ""
  end.

(** [for key in keys: if key in tags: dt = str(tags[key]); break] *)
Fixpoint first_tag (tags : Tags) (keys : list string) : option string :=
  match keys with
  | [] => None
  | key :: keys' =>
      match get tags key with
      | Some t => Some (printable t)
      | None => first_tag tags keys'
      end
  end.

Definition _exifread_extract_body (w : World) (path : Path)
  : result PhotoMeta.t :=
  tags <- open_file path (exifread_process_file w) ;;
  let lat_vals := get tags "GPS GPSLatitude" in
  let lat_ref := or_None (strip (str_tag tags "GPS GPSLatitudeRef")) in
  let lon_vals := get tags "GPS GPSLongitude" in
  let lon_ref := or_None (strip (str_tag tags "GPS GPSLongitudeRef")) in
  let '(lat, lon) :=
    match lat_vals, lon_vals with
    | Some lat_vals, Some lon_vals =>
        (_ratios_to_decimal (values lat_vals) lat_ref,
         _ratios_to_decimal (values lon_vals) lon_ref)
    | _, _ => (None, None)
    end in
  let dt := first_tag tags ["EXIF DateTimeOriginal"; "Image DateTime"] in
  let make := or_None (str_tag tags "Image Make") in
  let model := or_None (str_tag tags "Image Model") in
  Ok (PhotoMeta.mk path lat lon dt make model []).

Definition _exifread_extract (w : World) (path : Path)
  : option PhotoMeta.t :=
  try_except (_exifread_extract_body w path).

(** *** Google Takeout sidecar JSON *)

(** [d.get(key)] on a decoded JSON object: a missing key and a [null]
    value both give [None]. *)
Definition jget (d : list (string * json)) (key : string) : json :=
  match get d key with
  | Some v => v
  | None => JNull
  end.

(** Truth value of a decoded JSON value *)
Definition truthy (v : json) : bool :=
  match v with
  | JNull => false
  | JBool b => b
  | JInt z => negb (Z.eqb z 0)
  | JNum q => negb (Qeq_bool q 0)
  | JStr s => negb (String.eqb s "")
  | JArr l => negb (Nat.eqb (List.length l) 0)
  | JObj d => negb (Nat.eqb (List.length d) 0)
  end.

(** [a or b] *)
Definition py_or (a b : json) : json := if truthy a then a else b.

(** [float(n)] raises [OverflowError] for an [int] that rounds to a
    magnitude beyond the largest float, 2^1024 - 2^971. *)
Definition float_overflow (z : Z) : bool :=
  Z.leb (2 ^ 1024 - 2 ^ 970) (Z.abs z).

(** [float(v)] for a decoded JSON value other than [None] *)
Definition float_json (v : json) : result Q :=
  match v with
  | JNum q => Ok q
  | JInt z => if float_overflow z then Raise OverflowError else Ok (inject_Z z)
  | JBool b => Ok (if b then 1 else 0)
  | JStr s => float_str s
  | _ => Raise TypeError
  end.

(** [float(v) if v is not None else None] *)
Definition float_or_None (v : json) : result (option Q) :=
  match v with
  | JNull => Ok None
  | _ => q <- float_json v ;; Ok (Some q)
  end.

Definition pick_latlon (d : list (string * json)) : option Q * option Q :=
  let lat := jget d "latitude" in
  let lon := jget d "longitude" in
  match (lat <- float_or_None lat ;;
         lon <- float_or_None lon ;;
         Ok (lat, lon)) with
  | Ok latlon => latlon
  | Raise _ => (None, None)
  end.

(** The loop over [("geoDataExif", "geoData", "location")], entered with
    the current values of [lat] and [lon]. *)
Fixpoint search_keys (data : list (string * json)) (keys : list string)
    (lat lon : option Q) : option Q * option Q :=
  match keys with
  | [] => (lat, lon)
  | key :: keys' =>
      match jget data key with
      | JObj gd =>
          let '(lat, lon) := pick_latlon gd in
          if (negb (is_None lat) && negb (is_None lon))%bool
          then (lat, lon)
          else search_keys data keys' lat lon
      | _ => search_keys data keys' lat lon
      end
  end.

Definition geo_keys : list string := ["geoDataExif"; "geoData"; "location"].

(** The datetime value picked from a decoded object *)
Definition pick_dt (data : list (string * json)) : json :=
  match jget data "photoTakenTime" with
  | JObj ptt => py_or (jget ptt "formatted") (jget ptt "timestamp")
  | _ => py_or (jget data "creationTime") (jget data "creationTimestamp")
  end.

(** [dt is None] *)
Definition is_null (dt : json) : bool :=
  match dt with
  | JNull => true
  | _ => false
  end.

(** [str(dt) if dt is not None else None] *)
Definition str_or_None (dt : json) : option string :=
  match dt with
  | JNull => None
  | _ => Some (str_of_json dt)
  end.

Definition triple : Type := (option Q * option Q * option string)%type.

(** One pass of the loop body after [data] has been decoded: [Some] is
    the [return], [None] falls through to the next candidate. *)
Definition read_data (data : json) : option triple :=
  match data with
  | JObj d =>
      let '(lat, lon) := search_keys d geo_keys None None in
      let dt := pick_dt d in
      if ((negb (is_None lat) && negb (is_None lon))
          || negb (is_null dt))%bool
      then Some (lat, lon, str_or_None dt)
      else None
  | _ => None
  end.

(** [for c in candidates: ...] followed by [return None, None, None];
    [c.exists()] is outside the [try]. *)
Fixpoint scan_candidates (w : World) (candidates : list Path)
  : result triple :=
  match candidates with
  | [] => Ok (None, None, None)
  | c :: rest =>
      exists_ <- fs_exists w c ;;
      if negb exists_ then scan_candidates w rest
      else
        match try_except (fs_load_json w c) with
        | None => scan_candidates w rest
        | Some data =>
            match read_data data with
            | Some t => Ok t
            | None => scan_candidates w rest
            end
        end
  end.

Definition candidates (path : Path) : result (list Path) :=
  c1 <- with_suffix path (suffix path ++ ".json") ;;
  c2 <- with_suffix path ".json" ;;
  Ok [c1; c2].

Definition _read_takeout_sidecar (w : World) (path : Path) : result triple :=
  cs <- candidates path ;;
  scan_candidates w cs.

(** *** Pillow fallback *)

(** Truth value of [data.get(key)] for a string-valued tag *)
Definition tag_truthy (v : option string) : bool :=
  match v with
  | Some s => negb (String.eqb s "")
  | None => false
  end.

(** [str(v) if v else None] *)
Definition str_if (v : option string) : option string :=
  if tag_truthy v then v else None.

(** [extra["altitude_m"] = str(num / den)], guarded by its own
    [try ... except Exception: pass] *)
Definition altitude_extra (gps_data : option GpsData)
  : list (string * string) :=
  match gps_data with
  | Some g =>
      match GPSAltitude g with
      | Some (num, den) =>
          match truediv num den with
          | Ok a => [("altitude_m", str_of_float a)]
          | Raise _ => []
          end
      | None => []
      end
  | None => []
  end.

(** [gps_data], built from [gps_info_raw = data.get("GPSInfo", {})] by
    [if gps_info_raw: for key in gps_info_raw.keys(): ...]: a truthy value
    without [keys] raises [AttributeError]. *)
Definition gps_data_of (gps_info_raw : GpsInfoValue) : result (option GpsData) :=
  match gps_info_raw with
  | GpsAbsent => Ok None
  | GpsDict g => Ok (Some g)
  | GpsNotDict => Raise AttributeError
  end.

Definition _pillow_extract_body (w : World) (path : Path)
  : result PhotoMeta.t :=
  data <- open_file path (pil_getexif w) ;;
  gps_data <- gps_data_of (GPSInfo data) ;;
  let '(lat, lon) :=
    match gps_data with
    | Some g =>
        (dms_to_decimal
           (match GPSLatitude g with Some l => l | None => [] end)
           (GPSLatitudeRef g),
         dms_to_decimal
           (match GPSLongitude g with Some l => l | None => [] end)
           (GPSLongitudeRef g))
    | None => (None, None)
    end in
  let dt :=
    str_if (if tag_truthy (DateTimeOriginal data)
            then DateTimeOriginal data else DateTime data) in
  let make := str_if (Make data) in
  let model := str_if (Model data) in
  let extra := altitude_extra gps_data in
  Ok (PhotoMeta.mk path lat lon dt make model extra).

Definition _pillow_extract (w : World) (path : Path) : option PhotoMeta.t :=
  try_except (_pillow_extract_body w path).

(** *** The resolver *)

Definition eps : Q := 1e-9.

Definition _drop_if_zero_coord (lat lon : option Q) : option Q * option Q :=
  match lat, lon with
  | Some la, Some lo =>
      if (Qlt_bool (Qabs la) eps && Qlt_bool (Qabs lo) eps)%bool
      then (None, None)
      else (lat, lon)
  | _, _ => (lat, lon)
  end.

(** [d[k] = v] *)
Fixpoint dict_set (d : list (string * string)) (k v : string)
  : list (string * string) :=
  match d with
  | [] => [(k, v)]
  | (k', v') :: d' =>
      if String.eqb k' k then (k, v) :: d' else (k', v') :: dict_set d' k v
  end.

(** [d.update(d')] *)
Definition dict_update (d d' : list (string * string))
  : list (string * string) :=
  fold_left (fun acc kv => dict_set acc (fst kv) (snd kv)) d' d.

(** [if x is None and y is not None: x = y] *)
Definition fill_from_sidecar {A : Type} (x y : option A) : option A :=
  if (is_None x && negb (is_None y))%bool then y else x.

(** [if x is None: x = y] *)
Definition fill_from_pillow {A : Type} (x y : option A) : option A :=
  if is_None x then y else x.

(** [m.field if m else None] *)
Definition field {A : Type} (m : option PhotoMeta.t)
    (f : PhotoMeta.t -> option A) : option A :=
  match m with
  | Some m => f m
  | None => None
  end.

Definition read_photo_meta (w : World) (path : Path) : M PhotoMeta.t :=
  (* 1) exifread *)
  m <~ invoke Exifread (Ok (_exifread_extract w path)) ;;
  let lat := field m PhotoMeta.lat in
  let lon := field m PhotoMeta.lon in
  let dt := field m PhotoMeta.datetime in
  let make := field m PhotoMeta.make in
  let model := field m PhotoMeta.model in
  let extra : list (string * string) := [] in
  (* 2) sidecar JSON *)
  s <~ invoke Sidecar (_read_takeout_sidecar w path) ;;
  let '(s_lat, s_lon, s_dt) := s in
  let lat := fill_from_sidecar lat s_lat in
  let lon := fill_from_sidecar lon s_lon in
  let dt := fill_from_sidecar dt s_dt in
  (* 3) Pillow *)
  r <~ (if ((is_None lat || is_None lon) && is_None m)%bool then
          pm <~ invoke Pillow (Ok (_pillow_extract w path)) ;;
          match pm with
          | Some pm =>
              mret (fill_from_pillow lat (PhotoMeta.lat pm),
                    fill_from_pillow lon (PhotoMeta.lon pm),
                    fill_from_pillow dt (PhotoMeta.datetime pm),
                    fill_from_pillow make (PhotoMeta.make pm),
                    fill_from_pillow model (PhotoMeta.model pm),
                    dict_update extra (PhotoMeta.extra pm))
          | None => mret (lat, lon, dt, make, model, extra)
          end
        else mret (lat, lon, dt, make, model, extra)) ;;
  let '(lat, lon, dt, make, model, extra) := r in
  let '(lat, lon) := _drop_if_zero_coord lat lon in
  mret (PhotoMeta.mk path lat lon dt make model extra).

(** *** The claims in the words of the specification *)

(** "latitude and longitude are either both None or both set" *)
Definition paired (lat lon : option Q) : Prop := is_None lat = is_None lon.

(** "the first key present whose value is an object containing numeric
    latitude/longitude fields": the complete pair under [key], if any. *)
Definition complete_pair (data : list (string * json)) (key : string)
  : option (Q * Q) :=
  match jget data key with
  | JObj gd =>
      match pick_latlon gd with
      | (Some lat, Some lon) => Some (lat, lon)
      | _ => None
      end
  | _ => None
  end.

Fixpoint first_complete (data : list (string * json)) (keys : list string)
  : option (Q * Q) :=
  match keys with
  | [] => None
  | key :: keys' =>
      match complete_pair data key with
      | Some latlon => Some latlon
      | None => first_complete data keys'
      end
  end.

(** "its (latitude, longitude, datetime) triple": what a decoded
    document holds, whether or not [read_data] returns it. *)
Definition data_triple (data : json) : triple :=
  match data with
  | JObj d =>
      let '(lat, lon) := search_keys d geo_keys None None in
      (lat, lon, str_or_None (pick_dt d))
  | _ => (None, None, None)
  end.

(** "a complete numeric latitude/longitude pair": a number that [float]
    converts, which is a float or an integer within the float range. *)
Definition numeric (v : json) (x : Q) : Prop :=
  v = JNum x
  \/ exists z, v = JInt z /\ float_overflow z = false /\ x = inject_Z z.

(** A decoded object holds a position when one of the three keys holds a
    complete pair, and a datetime when [pick_dt] finds one. *)
Definition holds_position (d : list (string * json)) : Prop :=
  exists lat lon, first_complete d geo_keys = Some (lat, lon).

Definition holds_datetime (d : list (string * json)) : Prop :=
  pick_dt d <> JNull.

(** Candidate [c] counts, with triple [t]: it exists, decodes to an object,
    and the object holds a position or a datetime. *)
Definition counts (w : World) (c : Path) (t : triple) : Prop :=
  fs_exists w c = Ok true
  /\ exists d,
      fs_load_json w c = Ok (JObj d)
      /\ (holds_position d \/ holds_datetime d)
      /\ t = data_triple (JObj d).

(** Candidate [c] is skipped: it does not exist, or it exists and cannot be
    read or decoded, or decodes to something that is not an object holding
    a position or a datetime. *)
Definition skipped (w : World) (c : Path) : Prop :=
  fs_exists w c = Ok false
  \/ (fs_exists w c = Ok true
      /\ ((exists e, fs_load_json w c = Raise e)
          \/ exists data,
              fs_load_json w c = Ok data
              /\ forall d, data = JObj d ->
                           ~ holds_position d /\ ~ holds_datetime d)).

(** [path.stem + ".json"] is the name of the second candidate. *)
Definition stem (p : Path) : string :=
  substring 0 (String.length (name p) - String.length (suffix p)) (name p).

(** Degrees, minutes and seconds as the specification writes them *)
Definition dms_value (deg minute second : Q) : Q :=
  deg + minute / 60 + second / 3600.

(** The largest whole number of degrees under a hemisphere reference:
    90 for a latitude, 180 for a longitude. *)
Definition ref_limit (ref : string) : Q :=
  if (String.eqb ref "N" || String.eqb ref "S")%bool then 90 else 180.

(** *** Sample inputs *)

Definition digit (a : ascii) : option Z :=
  let n := nat_of_ascii a in
  if (Nat.leb 48 n && Nat.leb n 57)%bool then Some (Z.of_nat (n - 48))
  else None.

Fixpoint digits (s : string) (acc : Z) : option Z :=
  match s with
  | EmptyString => Some acc
  | String a s' =>
      match digit a with
      | Some d => digits s' (10 * acc + d)%Z
      | None => None
      end
  end.

(** [float] on strings of decimal digits; it rejects every other string,
    which Python does for the strings used below. *)
Definition sample_float (s : string) : option Q :=
  match s with
  | EmptyString => None
  | _ => option_map inject_Z (digits s 0)
  end.

(** [str] on JSON strings *)
Definition sample_str_json (v : json) : string :=
  match v with
  | JStr s => s
  | _ => ""
  end.

Definition sample_str_float (q : Q) : string := "0.0".

Definition photo : Path := mkPath "album" "IMG_1.jpg".

Definition no_file {A : Type} (p : Path) : result A := Raise OSError.

(** A photo whose header has a latitude and a longitude written as 0/0,
    and no sidecar. *)
Definition tags_half_gps : Tags :=
  [("GPS GPSLatitude", mkTag "[51, 30, 26]" ["51"; "30"; "26"]);
   ("GPS GPSLatitudeRef", mkTag "N" ["N"]);
   ("GPS GPSLongitude", mkTag "[0/0, 0/0, 0/0]" ["0/0"; "0/0"; "0/0"]);
   ("GPS GPSLongitudeRef", mkTag "W" ["W"])].

Definition world_half_gps : World :=
  mkWorld (fun _ => Ok tags_half_gps) (fun _ => Ok false) no_file no_file.

(** A photo with a complete header. *)
Definition tags_full : Tags :=
  [("GPS GPSLatitude", mkTag "[51, 30, 26]" ["51"; "30"; "26"]);
   ("GPS GPSLatitudeRef", mkTag "N" ["N"]);
   ("GPS GPSLongitude", mkTag "[0, 7, 39]" ["0"; "7"; "39"]);
   ("GPS GPSLongitudeRef", mkTag "W" ["W"]);
   ("EXIF DateTimeOriginal", mkTag "2020:01:02 03:04:05" []);
   ("Image Make", mkTag "Canon" []);
   ("Image Model", mkTag "EOS" [])].

Definition geo (lat lon : Q) : json :=
  JObj [("latitude", JNum lat); ("longitude", JNum lon)].

Definition sidecar_both : list (string * json) :=
  [("geoData", geo 1 2); ("geoDataExif", geo 3 4);
   ("photoTakenTime", JObj [("timestamp", JStr "1577934245")])].

Definition world_full : World :=
  mkWorld (fun _ => Ok tags_full)
          (fun c => Ok (String.eqb (name c) "IMG_1.jpg.json"))
          (fun _ => Ok (JObj sidecar_both))
          (fun _ => Ok (mkExif GpsAbsent (Some "1999:01:01 00:00:00") None
                          (Some "Nikon") (Some "D1"))).

(** No readable header; the first candidate decodes to an empty object,
    the second holds a position. *)
Definition world_two_sidecars : World :=
  mkWorld no_file
          (fun c => Ok (String.eqb (name c) "IMG_1.jpg.json"
                        || String.eqb (name c) "IMG_1.json")%bool)
          (fun c => if String.eqb (name c) "IMG_1.jpg.json"
                    then Ok (JObj [])
                    else Ok (JObj [("geoData", geo 1 2)]))
          no_file.

(** Nothing can be read and there is no sidecar. *)
Definition world_nothing : World :=
  mkWorld no_file (fun _ => Ok false) no_file no_file.

(** The entries of a photo directory: a text file, two photos and a
    sub-directory whose name ends like a photo. *)
Definition sample_entries : list Path :=
  [mkPath "album" "notes.txt"; photo; mkPath "album" "B.PNG";
   mkPath "album" "old.jpg"].

Definition sample_is_file (p : Path) : bool :=
  negb (String.eqb (name p) "old.jpg").

(** Only the decoder can read the photo; the altitude has a zero
    denominator. *)
Definition world_bad_altitude : World :=
  mkWorld no_file (fun _ => Ok false) no_file
          (fun _ => Ok (mkExif (GpsDict (mkGps None None None None (Some (100, 0))))
                          None (Some "2021:05:06 07:08:09") (Some "") None)).

(** A sidecar with an empty [photoTakenTime] and a [creationTime]. *)
Definition sidecar_hidden_time : list (string * json) :=
  [("photoTakenTime", JObj []); ("creationTime", JStr "2019-01-01")].

(** A string of [n] copies of [a] *)
Fixpoint replicate (n : nat) (a : ascii) : string :=
  match n with
  | O => EmptyString
  | S n' => String a (replicate n' a)
  end.

(** A photo whose name has 252 bytes, the most that still leaves a valid
    file name, with a complete header. *)
Definition long_photo : Path := mkPath "album" (replicate 248 "a" ++ ".jpg").

(** A file system whose names are at most 255 bytes long: the existence
    check of a longer name raises (ENAMETOOLONG); there are no sidecars. *)
Definition world_name_max : World :=
  mkWorld (fun _ => Ok tags_full)
          (fun c => if Nat.ltb 255 (String.length (name c))
                    then Raise OSError else Ok false)
          no_file no_file.

(** [geoDataExif] holds a latitude only, [geoData] a longitude only. *)
Definition sidecar_partial : list (string * json) :=
  [("geoDataExif", JObj [("latitude", JNum 1)]);
   ("geoData", JObj [("longitude", JNum 2)])].

(** ** main.py: the loop over the scanned photos *)

Record MainState : Type := mkMain {
  repo : PhotoRepository.t;
  total : nat;
  with_gps : nat;
  without_gps : nat
}.

Definition main_init : MainState := mkMain PhotoRepository.init 0 0 0.

(** The body of [for p in scan_images(...)]; the verbose printing is left
    out. *)
Definition main_step (w : World) (st : MainState) (p : Path)
  : result MainState :=
  let total := S (total st) in
  m <- outcome (read_photo_meta w p) ;;
  if (is_None (PhotoMeta.lat m) || is_None (PhotoMeta.lon m))%bool then
    let repo := PhotoRepository.skip (repo st) p in
    Ok (mkMain (PhotoRepository.add repo m) total
               (with_gps st) (S (without_gps st)))
  else
    Ok (mkMain (PhotoRepository.add (repo st) m) total
               (S (with_gps st)) (without_gps st)).

Fixpoint main_loop (w : World) (paths : list Path) (st : MainState)
  : result MainState :=
  match paths with
  | [] => Ok st
  | p :: rest =>
      st' <- main_step w st p ;;
      main_loop w rest st'
  end.

(** * Properties *)

(** ** Arithmetic and comprehension lemmas *)

Lemma Qlt_bool_iff (x y : Q) : Qlt_bool x y = true <-> x < y.
Proof.
  unfold Qlt_bool. rewrite negb_true_iff. split; intro H.
  - apply Qnot_le_lt. intro Hle. apply Qle_bool_iff in Hle. congruence.
  - destruct (Qle_bool y x) eqn:E; [|reflexivity].
    apply Qle_bool_iff in E. exfalso. exact (Qlt_not_le _ _ H E).
Qed.

Lemma Qlt_bool_false (x y : Q) : y <= x -> Qlt_bool x y = false.
Proof.
  intro H. unfold Qlt_bool. apply Qle_bool_iff in H. now rewrite H.
Qed.

Lemma truediv_ok (n d : Q) : ~ d == 0 -> truediv n d = Ok (n / d).
Proof.
  intro H. unfold truediv. destruct (Qeq_bool d 0) eqn:E; [|reflexivity].
  apply Qeq_bool_iff in E. contradiction.
Qed.

Lemma truediv_zero (n d : Q) : d == 0 -> truediv n d = Raise ZeroDivisionError.
Proof.
  intro H. unfold truediv. apply Qeq_bool_iff in H. now rewrite H.
Qed.

Lemma comprehension_length {A B : Type} (f : A -> result B) (xs : list A) :
  forall ys, comprehension f xs = Ok ys -> List.length ys = List.length xs.
Proof.
  induction xs as [|x xs IH]; simpl; intros ys H.
  - now inversion H.
  - destruct (f x); simpl in H; [|discriminate].
    destruct (comprehension f xs); simpl in H; [|discriminate].
    inversion H; subst. simpl. f_equal. now apply IH.
Qed.

Lemma comprehension_raise {A B : Type} (f : A -> result B) (xs : list A) :
  forall x e, In x xs -> f x = Raise e ->
  exists e', comprehension f xs = Raise e'.
Proof.
  induction xs as [|y xs IH]; simpl; intros x e Hin Hf; [contradiction|].
  destruct Hin as [-> | Hin].
  - rewrite Hf. simpl. now exists e.
  - destruct (f y); simpl; [|now eexists].
    destruct (IH x e Hin Hf) as [e' ->]. simpl. now exists e'.
Qed.

Lemma dms_to_decimal_three (dn dd mn md sn sd : Q) (ref : option string) :
  ~ dd == 0 -> ~ md == 0 -> ~ sd == 0 ->
  dms_to_decimal [(dn, dd); (mn, md); (sn, sd)] ref
  = Some (if ref_in_SW ref
          then - dms_value (dn / dd) (mn / md) (sn / sd)
          else dms_value (dn / dd) (mn / md) (sn / sd)).
Proof.
  intros Hd Hm Hs. unfold dms_to_decimal, dms_to_decimal_body. simpl.
  rewrite (truediv_ok dn dd Hd), (truediv_ok mn md Hm), (truediv_ok sn sd Hs).
  reflexivity.
Qed.

Lemma dms_value_bounds (d m s : Q) :
  0 <= d -> 0 <= m < 60 -> 0 <= s < 60 ->
  0 <= dms_value d m s /\ dms_value d m s < d + 61 / 60.
Proof.
  intros Hd [Hm0 Hm] [Hs0 Hs]. unfold dms_value.
  assert (Hm1 : 0 <= m / 60) by (apply Qle_shift_div_l; [reflexivity|now rewrite Qmult_0_l]).
  assert (Hs1 : 0 <= s / 3600) by (apply Qle_shift_div_l; [reflexivity|now rewrite Qmult_0_l]).
  assert (Hm2 : m / 60 < 1) by (apply Qlt_shift_div_r; [reflexivity|now rewrite Qmult_1_l]).
  assert (Hs2 : s / 3600 < 1 / 60).
  { apply Qlt_shift_div_r; [reflexivity|].
    eapply Qlt_le_trans; [exact Hs|]. discriminate. }
  split.
  - rewrite <- (Qplus_0_r 0). apply Qplus_le_compat; [|exact Hs1].
    rewrite <- (Qplus_0_r 0). apply Qplus_le_compat; assumption.
  - setoid_replace (d + 61 / 60) with (d + 1 + 1 / 60) by field.
    apply Qplus_lt_le_compat; [|apply Qlt_le_weak; exact Hs2].
    apply Qplus_lt_r. exact Hm2.
Qed.

(** ** Degrees, minutes, seconds *)

(** C8, as amended. For a triple of rationals with nonzero denominators,
    degrees in [0, limit] (limit 90 under N/S, 180 under E/W), minutes and
    seconds in [0, 60), [dms_to_decimal] returns deg + min/60 + sec/3600,
    negated exactly under S and W. The magnitude of the result is that
    sum: it stays below limit + 61/60, and it is within the limit exactly
    when the sum is; nothing clamps it. The London triple yields a value
    within 0.01 of 51.5072. *)
Theorem dms_to_decimal_wellformed :
  (forall (dn dd mn md sn sd : Q) (ref : string),
      ~ dd == 0 -> ~ md == 0 -> ~ sd == 0 ->
      In ref ["N"; "S"; "E"; "W"] ->
      0 <= dn / dd <= ref_limit ref ->
      0 <= mn / md < 60 ->
      0 <= sn / sd < 60 ->
      let total := dms_value (dn / dd) (mn / md) (sn / sd) in
      exists v,
        dms_to_decimal [(dn, dd); (mn, md); (sn, sd)] (Some ref) = Some v
        /\ (In ref ["S"; "W"] -> v = - total)
        /\ (In ref ["N"; "E"] -> v = total)
        /\ Qabs v == total
        /\ Qabs v < ref_limit ref + 61 / 60
        /\ (Qabs v <= ref_limit ref <-> total <= ref_limit ref))
  /\ (exists v,
        dms_to_decimal [(51, 1); (30, 1); (26, 1)] (Some "N") = Some v
        /\ Qabs (v - 51.5072) < 0.01).
Proof.
  split.
  - intros dn dd mn md sn sd ref Hd Hm Hs Href [Hd0 Hd1] Hmin Hsec total.
    destruct (dms_value_bounds _ _ _ Hd0 Hmin Hsec) as [Ht0 Ht1].
    fold total in Ht0, Ht1.
    rewrite (dms_to_decimal_three dn dd mn md sn sd (Some ref) Hd Hm Hs).
    fold total.
    assert (Hlim : total < ref_limit ref + 61 / 60).
    { eapply Qlt_le_trans; [exact Ht1|].
      apply Qplus_le_compat; [exact Hd1 | apply Qle_refl]. }
    assert (Hneg : Qabs (- total) == total)
      by (rewrite Qabs_opp; now apply Qabs_pos).
    assert (Hpos : Qabs total == total) by now apply Qabs_pos.
    simpl in Href.
    destruct Href as [<- | [<- | [<- | [<- | []]]]]; simpl;
      eexists; (split; [reflexivity|]);
      (split; [intros [E | [E | []]]; try discriminate E; reflexivity|]);
      (split; [intros [E | [E | []]]; try discriminate E; reflexivity|]);
      (split; [assumption|]);
      (split; [first [rewrite Hneg | rewrite Hpos]; exact Hlim|]);
      first [rewrite Hneg | rewrite Hpos]; reflexivity.
  - eexists. split; [reflexivity|]. reflexivity.
Qed.

(** C9. Both conversions answer [None] whenever their body raises; in
    particular for fewer than three components, for a zero denominator
    and for a ratio string that does not parse. *)
Theorem dms_failure_is_None :
  (forall dms ref e,
      dms_to_decimal_body dms ref = Raise e -> dms_to_decimal dms ref = None)
  /\ (forall dms ref,
        (List.length dms < 3)%nat -> dms_to_decimal dms ref = None)
  /\ (forall dms ref n d,
        In (n, d) dms -> d == 0 -> dms_to_decimal dms ref = None)
  /\ (forall parts ref e,
        _ratios_to_decimal_body parts ref = Raise e ->
        _ratios_to_decimal parts ref = None)
  /\ (forall parts ref,
        (List.length parts < 3)%nat -> _ratios_to_decimal parts ref = None)
  /\ (forall parts ref s e,
        In s parts -> to_float s = Raise e ->
        _ratios_to_decimal parts ref = None)
  /\ (forall s num den n d,
        contains "/" s = true -> split "/" s = [num; den] ->
        float_of_str num = Some n -> float_of_str den = Some d -> d == 0 ->
        to_float s = Raise ZeroDivisionError)
  /\ (forall s num den,
        contains "/" s = true -> split "/" s = [num; den] ->
        float_of_str num = None \/ float_of_str den = None ->
        to_float s = Raise ValueError)
  /\ (forall s,
        contains "/" s = false -> float_of_str s = None ->
        to_float s = Raise ValueError).
Proof.
  repeat split.
  - intros dms ref e H. unfold dms_to_decimal. now rewrite H.
  - intros dms ref H. unfold dms_to_decimal, dms_to_decimal_body.
    destruct (comprehension _ dms) as [d|e] eqn:E; [|reflexivity].
    apply comprehension_length in E.
    destruct d as [|d0 [|d1 [|d2 d]]]; simpl in *; try reflexivity. lia.
  - intros dms ref n d Hin Hz. unfold dms_to_decimal, dms_to_decimal_body.
    destruct (comprehension_raise
                (fun nd => truediv (fst nd) (snd nd)) dms (n, d)
                ZeroDivisionError Hin (truediv_zero n d Hz)) as [e' ->].
    reflexivity.
  - intros parts ref e H. unfold _ratios_to_decimal. now rewrite H.
  - intros parts ref H. unfold _ratios_to_decimal, _ratios_to_decimal_body.
    destruct (comprehension to_float parts) as [fs|e] eqn:E; [|reflexivity].
    apply comprehension_length in E.
    destruct fs as [|f0 [|f1 [|f2 [|f3 fs]]]]; simpl in *;
      try reflexivity. lia.
  - intros parts ref s e Hin Hs. unfold _ratios_to_decimal, _ratios_to_decimal_body.
    destruct (comprehension_raise to_float parts s e Hin Hs) as [e' ->].
    reflexivity.
  - intros s num den n d Hc Hsp Hn Hd Hz. unfold to_float, float_str.
    rewrite Hc, Hsp, Hn, Hd. simpl. now apply truediv_zero.
  - intros s num den Hc Hsp H. unfold to_float, float_str.
    rewrite Hc, Hsp. destruct H as [-> | H]; [reflexivity|].
    destruct (float_of_str num); simpl; [now rewrite H | reflexivity].
  - intros s Hc H. unfold to_float, float_str. now rewrite Hc, H.
Qed.

(** ** Paths of the sidecar candidates *)

Lemma append_empty_r (s : string) : s ++ "" = s.
Proof. induction s as [|c s IH]; simpl; [reflexivity | now rewrite IH]. Qed.

Lemma append_assoc (a b c : string) : (a ++ b) ++ c = a ++ (b ++ c).
Proof. induction a as [|x a IH]; simpl; [reflexivity | now rewrite IH]. Qed.

Lemma substring_all (s : string) : substring 0 (String.length s) s = s.
Proof. induction s as [|c s IH]; simpl; [reflexivity | now rewrite IH]. Qed.

Lemma substring_split (s : string) :
  forall i, (i <= String.length s)%nat ->
  substring 0 i s ++ substring i (String.length s - i) s = s.
Proof.
  induction s as [|c s IH]; intros i Hi; simpl in Hi.
  - assert (i = 0)%nat as -> by lia. reflexivity.
  - destruct i as [|i].
    + simpl. now rewrite substring_all.
    + simpl. rewrite IH by lia. reflexivity.
Qed.

Lemma substring_tail_length (s : string) :
  forall i, (i <= String.length s)%nat ->
  String.length (substring i (String.length s - i) s)
  = (String.length s - i)%nat.
Proof.
  induction s as [|c s IH]; intros i Hi; simpl in Hi.
  - assert (i = 0)%nat as -> by lia. reflexivity.
  - destruct i as [|i].
    + simpl. now rewrite substring_all.
    + simpl. apply IH. lia.
Qed.

Lemma stem_suffix (p : Path) : stem p ++ suffix p = name p.
Proof.
  unfold stem, suffix.
  destruct (rfind "." (name p)) as [i|];
    [destruct (Nat.ltb 0 i && Nat.ltb i (String.length (name p) - 1))%bool eqn:E|].
  - apply andb_true_iff in E. destruct E as [_ E]. apply Nat.ltb_lt in E.
    rewrite substring_tail_length by lia.
    replace (String.length (name p) - (String.length (name p) - i))%nat
      with i by lia.
    apply substring_split. lia.
  - simpl. rewrite Nat.sub_0_r, substring_all. apply append_empty_r.
  - simpl. rewrite Nat.sub_0_r, substring_all. apply append_empty_r.
Qed.

Lemma name_eqb_false (p : Path) :
  name p <> "" -> String.eqb (name p) "" = false.
Proof. intro H. now apply String.eqb_neq. Qed.

Lemma candidates_named (p : Path) :
  name p <> "" ->
  candidates p = Ok [mkPath (parent p) (name p ++ ".json");
                     mkPath (parent p) (stem p ++ ".json")].
Proof.
  intro H. unfold candidates, with_suffix.
  rewrite (name_eqb_false p H). cbv zeta. unfold rbind.
  fold (stem p).
  destruct (String.eqb (suffix p) "") eqn:E.
  - apply String.eqb_eq in E.
    pose proof (stem_suffix p) as Hs. rewrite E, append_empty_r in Hs.
    rewrite E, Hs. reflexivity.
  - rewrite <- append_assoc, stem_suffix. reflexivity.
Qed.

Lemma candidates_unnamed (p : Path) :
  name p = "" -> candidates p = Raise ValueError.
Proof. intro H. unfold candidates, with_suffix. now rewrite H. Qed.

(** ** The sidecar reader *)

Lemma scan_candidates_cons (w : World) (c : Path) (rest : list Path) :
  scan_candidates w (c :: rest)
  = match fs_exists w c with
    | Raise e => Raise e
    | Ok false => scan_candidates w rest
    | Ok true =>
        match fs_load_json w c with
        | Ok data =>
            match read_data data with
            | Some t => Ok t
            | None => scan_candidates w rest
            end
        | Raise _ => scan_candidates w rest
        end
    end.
Proof.
  simpl. destruct (fs_exists w c) as [[|]|e]; simpl; try reflexivity.
  destruct (fs_load_json w c); reflexivity.
Qed.

(** ** The key search of the sidecar reader *)

Lemma search_keys_first_complete (d : list (string * json)) (keys : list string) :
  forall lat lon a b,
    first_complete d keys = Some (a, b) ->
    search_keys d keys lat lon = (Some a, Some b).
Proof.
  induction keys as [|key keys IH]; simpl; intros lat lon a b H;
    [discriminate|].
  unfold complete_pair in H.
  destruct (jget d key) as [| | | | | |gd]; try (now apply IH).
  destruct (pick_latlon gd) as [[la|] [lo|]]; simpl; try (now apply IH).
  now inversion H.
Qed.

Lemma search_keys_incomplete (d : list (string * json)) (keys : list string) :
  forall lat lon,
    first_complete d keys = None ->
    lat = None \/ lon = None ->
    fst (search_keys d keys lat lon) = None
    \/ snd (search_keys d keys lat lon) = None.
Proof.
  induction keys as [|key keys IH]; simpl; intros lat lon H Hor;
    [exact Hor|].
  unfold complete_pair in H.
  destruct (jget d key) as [| | | | | |gd]; try (now apply IH).
  destruct (pick_latlon gd) as [[la|] [lo|]]; simpl; try discriminate;
    apply IH; auto.
Qed.

Lemma float_or_None_numeric (v : json) (x : Q) :
  numeric v x -> float_or_None v = Ok (Some x).
Proof.
  intros [-> | [z [-> [Hz ->]]]]; simpl; [reflexivity | now rewrite Hz].
Qed.

Lemma pick_latlon_numeric (g : list (string * json)) (a b : Q) :
  numeric (jget g "latitude") a -> numeric (jget g "longitude") b ->
  pick_latlon g = (Some a, Some b).
Proof.
  intros Ha Hb. unfold pick_latlon.
  now rewrite (float_or_None_numeric _ _ Ha), (float_or_None_numeric _ _ Hb).
Qed.

(** C6. The key search returns the pair of the first of [geoDataExif],
    [geoData], [location] that is an object with a complete pair. When
    [geoDataExif] and [geoData] both hold a numeric latitude and
    longitude (floats, or integers within the float range), the search,
    the decoded document and the reader (when that document is the first
    candidate) all answer the [geoDataExif] pair. *)
Theorem geoDataExif_has_priority :
  (forall d a b,
      first_complete d geo_keys = Some (a, b) ->
      search_keys d geo_keys None None = (Some a, Some b))
  /\ (forall d g1 g2 a1 b1 a2 b2,
        jget d "geoDataExif" = JObj g1 ->
        numeric (jget g1 "latitude") a1 -> numeric (jget g1 "longitude") b1 ->
        jget d "geoData" = JObj g2 ->
        numeric (jget g2 "latitude") a2 -> numeric (jget g2 "longitude") b2 ->
        search_keys d geo_keys None None = (Some a1, Some b1)
        /\ read_data (JObj d)
           = Some (Some a1, Some b1, str_or_None (pick_dt d))
        /\ (forall w p,
              name p <> "" ->
              fs_exists w (mkPath (parent p) (name p ++ ".json")) = Ok true ->
              fs_load_json w (mkPath (parent p) (name p ++ ".json"))
              = Ok (JObj d) ->
              _read_takeout_sidecar w p
              = Ok (Some a1, Some b1, str_or_None (pick_dt d)))).
Proof.
  split.
  - intros d a b H. now apply search_keys_first_complete.
  - intros d g1 g2 a1 b1 a2 b2 H1 Ha1 Hb1 H2 Ha2 Hb2.
    assert (Hs : search_keys d geo_keys None None = (Some a1, Some b1)).
    { apply search_keys_first_complete. unfold geo_keys. simpl.
      unfold complete_pair. now rewrite H1, (pick_latlon_numeric g1 a1 b1). }
    assert (Hr : read_data (JObj d)
                 = Some (Some a1, Some b1, str_or_None (pick_dt d))).
    { unfold read_data. now rewrite Hs. }
    split; [exact Hs|]. split; [exact Hr|].
    intros w p Hn He Hl. unfold _read_takeout_sidecar.
    rewrite (candidates_named p Hn). unfold rbind.
    rewrite scan_candidates_cons. now rewrite He, Hl, Hr.
Qed.

(** C10. When [geoDataExif] is an object without a complete pair, its
    partial result does not survive a later object: the search answers the
    whole [pick_latlon] result of [geoData], or that of [location] when
    [geoData] has no complete pair. A latitude under [geoDataExif] and a
    longitude under [geoData] are not merged. *)
Theorem partial_pair_is_replaced :
  (forall d g1,
      jget d "geoDataExif" = JObj g1 ->
      complete_pair d "geoDataExif" = None ->
      (forall g2,
          jget d "geoData" = JObj g2 ->
          complete_pair d "geoData" <> None
          \/ (forall g3, jget d "location" <> JObj g3) ->
          search_keys d geo_keys None None = pick_latlon g2)
      /\ (forall g3,
            jget d "location" = JObj g3 ->
            complete_pair d "geoData" = None ->
            search_keys d geo_keys None None = pick_latlon g3))
  /\ pick_latlon [("latitude", JNum 1)] = (Some 1, None)
  /\ search_keys sidecar_partial geo_keys None None = (None, Some 2).
Proof.
  split; [|split; reflexivity].
  intros d g1 H1 Hc1. unfold complete_pair in Hc1. rewrite H1 in Hc1.
  split.
  - intros g2 H2 Hor. unfold geo_keys. simpl. rewrite H1, H2.
    unfold complete_pair in Hor. rewrite H2 in Hor.
    destruct (pick_latlon g1) as [[la1|] [lo1|]]; try discriminate; simpl;
      destruct (pick_latlon g2) as [[la2|] [lo2|]]; simpl; try reflexivity;
      (destruct Hor as [Hor | Hor]; [now contradiction Hor|]);
      (destruct (jget d "location") as [| | | | | |g3] eqn:E3;
         try reflexivity; now contradiction (Hor g3)).
  - intros g3 H3 Hc2. unfold geo_keys. simpl. rewrite H1, H3.
    unfold complete_pair in Hc2.
    destruct (pick_latlon g1) as [[la1|] [lo1|]]; try discriminate; simpl;
      destruct (jget d "geoData") as [| | | | | |g2];
      try (destruct (pick_latlon g3) as [[la3|] [lo3|]]; reflexivity);
      (destruct (pick_latlon g2) as [[la2|] [lo2|]]; try discriminate; simpl;
       destruct (pick_latlon g3) as [[la3|] [lo3|]]; reflexivity).
Qed.

(** ** The candidates of the sidecar reader *)

Lemma read_data_counts (d : list (string * json)) :
  holds_position d \/ holds_datetime d ->
  read_data (JObj d) = Some (data_triple (JObj d)).
Proof.
  unfold read_data, data_triple, holds_position, holds_datetime.
  intros [[lat [lon H]] | H].
  - rewrite (search_keys_first_complete d geo_keys None None lat lon H).
    reflexivity.
  - destruct (search_keys d geo_keys None None) as [lat lon].
    destruct (pick_dt d); try (now contradiction H);
      simpl; now rewrite orb_true_r.
Qed.

Lemma read_data_nothing (d : list (string * json)) :
  ~ holds_position d -> ~ holds_datetime d -> read_data (JObj d) = None.
Proof.
  unfold read_data, holds_position, holds_datetime. intros Hp Hd.
  assert (Hc : first_complete d geo_keys = None).
  { destruct (first_complete d geo_keys) as [[a b]|]; [|reflexivity].
    exfalso. apply Hp. now exists a, b. }
  assert (Hn : pick_dt d = JNull).
  { destruct (pick_dt d); try reflexivity; exfalso; apply Hd; discriminate. }
  pose proof (search_keys_incomplete d geo_keys None None Hc
                (or_introl eq_refl)) as H.
  destruct (search_keys d geo_keys None None) as [lat lon]. simpl in H.
  rewrite Hn. destruct H as [-> | ->]; [reflexivity | now destruct lat].
Qed.

Lemma scan_counts (w : World) (c : Path) (rest : list Path) (t : triple) :
  counts w c t -> scan_candidates w (c :: rest) = Ok t.
Proof.
  intros [He [d [Hl [Hd ->]]]]. rewrite scan_candidates_cons, He, Hl.
  now rewrite (read_data_counts d Hd).
Qed.

Lemma scan_skipped (w : World) (c : Path) (rest : list Path) :
  skipped w c -> scan_candidates w (c :: rest) = scan_candidates w rest.
Proof.
  intros [He | [He [[e Hl] | [data [Hl Hd]]]]];
    rewrite scan_candidates_cons, He; try reflexivity; rewrite Hl;
    [reflexivity|].
  destruct data as [| | | | | |d]; try reflexivity.
  destruct (Hd d eq_refl) as [Hp Ht].
  now rewrite (read_data_nothing d Hp Ht).
Qed.

(** C3, as amended. For a path with a name, the reader looks at
    [name + ".json"] and then at [stem + ".json"]. Where the existence
    checks answer, a candidate is skipped when it does not exist, cannot be
    read or decoded, is not a JSON object, or holds neither a complete
    coordinate pair nor a datetime; every other candidate counts. The
    reader returns the triple of the first candidate that counts: the
    complete pair when there is one, and the datetime when there is one;
    it returns [(None, None, None)] when both candidates are skipped. *)
Theorem read_takeout_sidecar_spec (w : World) (p : Path) :
  name p <> "" ->
  let c1 := mkPath (parent p) (name p ++ ".json") in
  let c2 := mkPath (parent p) (stem p ++ ".json") in
  candidates p = Ok [c1; c2]
  /\ (forall t, counts w c1 t -> _read_takeout_sidecar w p = Ok t)
  /\ (forall t, skipped w c1 -> counts w c2 t ->
                _read_takeout_sidecar w p = Ok t)
  /\ (skipped w c1 -> skipped w c2 ->
      _read_takeout_sidecar w p = Ok (None, None, None))
  /\ (forall d lat lon,
        first_complete d geo_keys = Some (lat, lon) ->
        data_triple (JObj d) = (Some lat, Some lon, str_or_None (pick_dt d)))
  /\ (forall d,
        holds_datetime d ->
        snd (data_triple (JObj d)) = Some (str_of_json (pick_dt d))).
Proof.
  intros H c1 c2.
  assert (Hr : _read_takeout_sidecar w p = scan_candidates w [c1; c2]).
  { unfold _read_takeout_sidecar. now rewrite (candidates_named p H). }
  split; [now apply candidates_named|].
  split; [intros t Hc; rewrite Hr; now apply scan_counts|].
  split; [intros t Hs Hc; rewrite Hr, (scan_skipped _ _ _ Hs);
          now apply scan_counts|].
  split; [intros Hs1 Hs2; rewrite Hr, (scan_skipped _ _ _ Hs1),
          (scan_skipped _ _ _ Hs2); reflexivity|].
  split.
  - intros d lat lon Hc. unfold data_triple.
    now rewrite (search_keys_first_complete d geo_keys None None lat lon Hc).
  - intros d Hd. unfold data_triple, holds_datetime in *.
    destruct (search_keys d geo_keys None None) as [lat lon]. simpl.
    destruct (pick_dt d); try reflexivity. now contradiction Hd.
Qed.

(** ** The resolver *)

Lemma exifread_extract_inv (w : World) (p : Path) (m : PhotoMeta.t) :
  _exifread_extract w p = Some m ->
  name p <> "" /\ PhotoMeta.path m = p /\ PhotoMeta.extra m = [].
Proof.
  unfold _exifread_extract, _exifread_extract_body, open_file.
  destruct (String.eqb (name p) "") eqn:E; [discriminate|].
  apply String.eqb_neq in E.
  destruct (exifread_process_file w p) as [tags|]; [|discriminate].
  unfold rbind, try_except.
  destruct (get tags "GPS GPSLatitude"), (get tags "GPS GPSLongitude");
    cbn; intro H; inversion H; now subst.
Qed.

Lemma exifread_extract_unnamed (w : World) (p : Path) :
  name p = "" -> _exifread_extract w p = None.
Proof.
  intro H. unfold _exifread_extract, _exifread_extract_body, open_file.
  now rewrite H.
Qed.

(** For a path with a name the reader returns, or lets through the
    exception of an existence check. *)
Lemma sidecar_outcome (w : World) (p : Path) :
  name p <> "" ->
  (exists t, _read_takeout_sidecar w p = Ok t)
  \/ exists e c,
      In c [mkPath (parent p) (name p ++ ".json");
            mkPath (parent p) (stem p ++ ".json")]
      /\ fs_exists w c = Raise e
      /\ _read_takeout_sidecar w p = Raise e.
Proof.
  intro H. unfold _read_takeout_sidecar. rewrite (candidates_named p H).
  unfold rbind. rewrite scan_candidates_cons.
  assert (Hrest :
            (exists t, scan_candidates w [mkPath (parent p) (stem p ++ ".json")]
                       = Ok t)
            \/ exists e,
                fs_exists w (mkPath (parent p) (stem p ++ ".json")) = Raise e
                /\ scan_candidates w [mkPath (parent p) (stem p ++ ".json")]
                   = Raise e).
  { rewrite scan_candidates_cons.
    destruct (fs_exists w (mkPath (parent p) (stem p ++ ".json")))
      as [[|]|e]; [| left; eexists; reflexivity | right; now exists e].
    left. destruct (fs_load_json w _) as [data|];
      [destruct (read_data data)|]; eexists; reflexivity. }
  destruct (fs_exists w (mkPath (parent p) (name p ++ ".json")))
    as [[|]|e] eqn:E1.
  - destruct (fs_load_json w _) as [data|x];
      [destruct (read_data data); [left; eexists; reflexivity|]|];
      (destruct Hrest as [[t Ht] | [e2 [He Ht]]];
       [left; now exists t
       | right; exists e2, (mkPath (parent p) (stem p ++ ".json"));
         simpl; auto]).
  - destruct Hrest as [[t Ht] | [e2 [He Ht]]];
      [left; now exists t
      | right; exists e2, (mkPath (parent p) (stem p ++ ".json"));
        simpl; auto].
  - right. exists e, (mkPath (parent p) (name p ++ ".json")). simpl. auto.
Qed.

Lemma sidecar_unnamed (w : World) (p : Path) :
  name p = "" -> _read_takeout_sidecar w p = Raise ValueError.
Proof.
  intro H. unfold _read_takeout_sidecar. now rewrite (candidates_unnamed p H).
Qed.

Lemma drop_keeps (la lo : Q) :
  ~ (Qabs la < eps /\ Qabs lo < eps) ->
  _drop_if_zero_coord (Some la) (Some lo) = (Some la, Some lo).
Proof.
  intro H. unfold _drop_if_zero_coord.
  destruct (Qlt_bool (Qabs la) eps) eqn:Ea; [|reflexivity].
  destruct (Qlt_bool (Qabs lo) eps) eqn:Eo; [|reflexivity].
  apply Qlt_bool_iff in Ea, Eo. exfalso. apply H. now split.
Qed.

Lemma drop_paired (lat lon : option Q) :
  paired lat lon ->
  paired (fst (_drop_if_zero_coord lat lon)) (snd (_drop_if_zero_coord lat lon)).
Proof.
  unfold paired, _drop_if_zero_coord. intro H.
  destruct lat as [la|], lon as [lo|]; try exact H.
  destruct (_ && _)%bool; reflexivity.
Qed.

(** The resolver returns exactly when the sidecar reader does. *)
Lemma read_photo_meta_of_sidecar (w : World) (p : Path) :
  match _read_takeout_sidecar w p with
  | Ok _ => exists r, outcome (read_photo_meta w p) = Ok r
  | Raise e => read_photo_meta w p = ([Exifread; Sidecar], Raise e)
  end.
Proof.
  unfold read_photo_meta, invoke, mbind, mret, outcome.
  destruct (_read_takeout_sidecar w p) as [t|e]; [|reflexivity].
  destruct t as [[s_lat s_lon] s_dt].
  destruct (_ && _)%bool; [destruct (_pillow_extract w p)|];
    destruct (_drop_if_zero_coord _ _); eexists; reflexivity.
Qed.

(** For a path with a name the resolver returns a record, or lets through
    the exception of an existence check of a sidecar candidate. *)
Lemma read_photo_meta_outcome (w : World) (p : Path) :
  name p <> "" ->
  (exists r, outcome (read_photo_meta w p) = Ok r)
  \/ exists e c,
      In c [mkPath (parent p) (name p ++ ".json");
            mkPath (parent p) (stem p ++ ".json")]
      /\ fs_exists w c = Raise e
      /\ outcome (read_photo_meta w p) = Raise e.
Proof.
  intro H. pose proof (read_photo_meta_of_sidecar w p) as Hr.
  destruct (sidecar_outcome w p H) as [[t Ht] | [e [c [Hc [He Ht]]]]];
    rewrite Ht in Hr.
  - now left.
  - right. exists e, c. split; [exact Hc|]. split; [exact He|].
    now rewrite Hr.
Qed.

(** For a path without a name ([Path(".")], [Path("/")]) the reader raises
    [ValueError] while it builds its candidates. *)
Lemma read_photo_meta_raises_on_unnamed_path :
  forall (w : World) (dir : string),
    read_photo_meta w (mkPath dir "") = ([Exifread; Sidecar], Raise ValueError).
Proof. intros w dir. reflexivity. Qed.

(** C7, at the input where it fails. The existence check of a sidecar
    candidate is outside every [try]: when the check of the first
    candidate of a photo raises, as it does for a candidate name that the
    file system finds too long, the resolver raises that exception,
    whatever the photo holds. *)
Theorem read_photo_meta_raises_when_exists_raises (w : World) (p : Path)
    (e : exn) :
  name p <> "" ->
  fs_exists w (mkPath (parent p) (name p ++ ".json")) = Raise e ->
  read_photo_meta w p = ([Exifread; Sidecar], Raise e).
Proof.
  intros Hn He. pose proof (read_photo_meta_of_sidecar w p) as Hr.
  unfold _read_takeout_sidecar in Hr. rewrite (candidates_named p Hn) in Hr.
  unfold rbind in Hr. rewrite scan_candidates_cons, He in Hr. exact Hr.
Qed.

(** The strategies the resolver invokes, in order. *)
Lemma read_photo_meta_log (w : World) (p : Path) :
  fst (read_photo_meta w p)
  = match _read_takeout_sidecar w p with
    | Ok (s_lat, s_lon, _) =>
        let m := _exifread_extract w p in
        if ((is_None (fill_from_sidecar (field m PhotoMeta.lat) s_lat)
             || is_None (fill_from_sidecar (field m PhotoMeta.lon) s_lon))
            && is_None m)%bool
        then [Exifread; Sidecar; Pillow]
        else [Exifread; Sidecar]
    | Raise _ => [Exifread; Sidecar]
    end.
Proof.
  unfold read_photo_meta, invoke, mbind, mret.
  destruct (_read_takeout_sidecar w p) as [t|e]; [|reflexivity].
  destruct t as [[s_lat s_lon] s_dt]. cbv zeta.
  destruct (_ && _)%bool; [destruct (_pillow_extract w p)|];
    destruct (_drop_if_zero_coord _ _); reflexivity.
Qed.

Lemma is_None_true {A : Type} (o : option A) : is_None o = true <-> o = None.
Proof. destruct o; simpl; split; intro H; congruence. Qed.

(** C2. The Pillow fallback is invoked exactly when the fast parser
    answered [None] and, after the sidecar values have been merged in,
    the latitude or the longitude is still [None]. A record from the fast
    parser, with or without coordinates, rules the fallback out. *)
Theorem pillow_invoked_iff (w : World) (p : Path) :
  (invoked Pillow (read_photo_meta w p)
   <-> _exifread_extract w p = None
       /\ exists s_lat s_lon s_dt,
           _read_takeout_sidecar w p = Ok (s_lat, s_lon, s_dt)
           /\ (fill_from_sidecar
                 (field (_exifread_extract w p) PhotoMeta.lat) s_lat = None
               \/ fill_from_sidecar
                    (field (_exifread_extract w p) PhotoMeta.lon) s_lon = None))
  /\ (forall m,
        _exifread_extract w p = Some m ->
        ~ invoked Pillow (read_photo_meta w p)).
Proof.
  unfold invoked. rewrite read_photo_meta_log.
  destruct (_read_takeout_sidecar w p) as [t|e].
  - destruct t as [[s_lat s_lon] s_dt]. cbv zeta.
    destruct (_exifread_extract w p) as [m|].
    + rewrite andb_false_r. split; [split|].
      * intros [H | [H | []]]; discriminate.
      * intros [H _]. discriminate.
      * intros m' _ [H | [H | []]]; discriminate.
    + split; [|intros m' H; discriminate].
      rewrite andb_true_r.
      destruct (is_None (fill_from_sidecar (field None PhotoMeta.lat) s_lat)
                || is_None (fill_from_sidecar (field None PhotoMeta.lon) s_lon))%bool
        eqn:E.
      * split; [intros _ | intros _; simpl; tauto].
        split; [reflexivity|]. exists s_lat, s_lon, s_dt.
        split; [reflexivity|].
        apply orb_true_iff in E. now rewrite !is_None_true in E.
      * split; [intros [H | [H | []]]; discriminate|].
        intros [_ [x [y [z [H Hor]]]]]. inversion H; subst.
        apply orb_false_iff in E. destruct E as [E1 E2].
        destruct Hor as [Hor | Hor]; apply is_None_true in Hor; congruence.
  - split; [split|].
    + intros [H | [H | []]]; discriminate.
    + intros [_ [x [y [z [H _]]]]]. discriminate.
    + intros m _ [H | [H | []]]; discriminate.
Qed.

(** C5. When the fast parser returns a record with latitude, longitude,
    datetime, make and model all set, and the pair is not the zero
    sentinel, every record the resolver returns is that very record; it
    returns it whenever the sidecar reader returns, whatever the sidecar
    and the decoder hold, and it does not invoke the fallback. *)
Theorem complete_header_is_kept (w : World) (p : Path) (m : PhotoMeta.t)
    (la lo : Q) (dt mk md : string) :
  _exifread_extract w p = Some m ->
  PhotoMeta.lat m = Some la ->
  PhotoMeta.lon m = Some lo ->
  PhotoMeta.datetime m = Some dt ->
  PhotoMeta.make m = Some mk ->
  PhotoMeta.model m = Some md ->
  ~ (Qabs la < eps /\ Qabs lo < eps) ->
  (forall r, outcome (read_photo_meta w p) = Ok r -> r = m)
  /\ (forall t, _read_takeout_sidecar w p = Ok t ->
                outcome (read_photo_meta w p) = Ok m)
  /\ ~ invoked Pillow (read_photo_meta w p).
Proof.
  intros Hm Hla Hlo Hdt Hmk Hmd Hz.
  destruct (exifread_extract_inv w p m Hm) as [Hn [Hp He]].
  assert (Hret : forall t, _read_takeout_sidecar w p = Ok t ->
                           outcome (read_photo_meta w p) = Ok m).
  { intros t Hs. destruct t as [[s_lat s_lon] s_dt].
    unfold read_photo_meta, invoke, mbind, mret, outcome.
    rewrite Hm, Hs. simpl field. rewrite Hla, Hlo, Hdt, Hmk, Hmd.
    cbn [fill_from_sidecar is_None andb orb negb].
    rewrite (drop_keeps la lo Hz). simpl.
    destruct m; simpl in *; now subst. }
  split; [|split; [exact Hret|]].
  - intros r Hr. pose proof (read_photo_meta_of_sidecar w p) as Hs.
    destruct (_read_takeout_sidecar w p) as [t|e] eqn:Et.
    + rewrite (Hret t eq_refl) in Hr. now inversion Hr.
    + rewrite Hs in Hr. discriminate Hr.
  - unfold invoked. rewrite read_photo_meta_log.
    destruct (_read_takeout_sidecar w p) as [t|e];
      [destruct t as [[s_lat s_lon] s_dt]; rewrite Hm; cbv zeta;
       rewrite andb_false_r|];
      intros [H | [H | []]]; discriminate.
Qed.

(** C1, as amended. The coordinates of the returned record are both
    [None] or both set whenever each source supplies them that way: the
    record of the fast parser, the triple of the sidecar reader and the
    record of the fallback. The resolver fills latitude and longitude one
    by one and does not pair them itself. *)
Theorem paired_sources_give_paired_record (w : World) (p : Path)
    (r : PhotoMeta.t) :
  outcome (read_photo_meta w p) = Ok r ->
  (forall m, _exifread_extract w p = Some m ->
             paired (PhotoMeta.lat m) (PhotoMeta.lon m)) ->
  (forall s_lat s_lon s_dt,
      _read_takeout_sidecar w p = Ok (s_lat, s_lon, s_dt) ->
      paired s_lat s_lon) ->
  (forall pm, _pillow_extract w p = Some pm ->
              paired (PhotoMeta.lat pm) (PhotoMeta.lon pm)) ->
  paired (PhotoMeta.lat r) (PhotoMeta.lon r).
Proof.
  unfold read_photo_meta, invoke, mbind, mret, outcome.
  intros Hr Hm Hs Hpm.
  destruct (_read_takeout_sidecar w p) as [[[s_lat s_lon] s_dt]|e];
    [|discriminate].
  specialize (Hs s_lat s_lon s_dt eq_refl).
  destruct (_exifread_extract w p) as [m|].
  - specialize (Hm m eq_refl). rewrite andb_false_r in Hr. simpl in Hr.
    match type of Hr with
    | context [_drop_if_zero_coord ?a ?b] =>
        assert (Hd : paired (fst (_drop_if_zero_coord a b))
                            (snd (_drop_if_zero_coord a b)))
    end.
    { apply drop_paired. unfold paired in *.
      destruct (PhotoMeta.lat m), (PhotoMeta.lon m), s_lat, s_lon;
        simpl in *; congruence. }
    destruct (_drop_if_zero_coord _ _) as [lat lon]. simpl in Hr.
    inversion Hr; subst. exact Hd.
  - simpl field in Hr. rewrite andb_true_r in Hr.
    destruct (_pillow_extract w p) as [pm|].
    + specialize (Hpm pm eq_refl).
      destruct (_ || _)%bool eqn:E; simpl in Hr;
        match type of Hr with
        | context [_drop_if_zero_coord ?a ?b] =>
            assert (Hd : paired (fst (_drop_if_zero_coord a b))
                                (snd (_drop_if_zero_coord a b)))
        end;
        try (apply drop_paired; unfold paired in *;
             destruct (PhotoMeta.lat pm), (PhotoMeta.lon pm), s_lat, s_lon;
             simpl in *; congruence);
        destruct (_drop_if_zero_coord _ _) as [lat lon]; simpl in Hr;
        inversion Hr; subst; exact Hd.
    + destruct (_ || _)%bool eqn:E; simpl in Hr;
        match type of Hr with
        | context [_drop_if_zero_coord ?a ?b] =>
            assert (Hd : paired (fst (_drop_if_zero_coord a b))
                                (snd (_drop_if_zero_coord a b)))
        end;
        try (apply drop_paired; unfold paired in *;
             destruct s_lat, s_lon; simpl in *; congruence);
        destruct (_drop_if_zero_coord _ _) as [lat lon]; simpl in Hr;
        inversion Hr; subst; exact Hd.
Qed.

(** ** The sentinel filter *)

Lemma drop_never_sentinel (lat lon : option Q) (la lo : Q) :
  _drop_if_zero_coord lat lon = (Some la, Some lo) ->
  ~ (Qabs la < eps /\ Qabs lo < eps).
Proof.
  unfold _drop_if_zero_coord. intros H [Ha Ho].
  apply Qlt_bool_iff in Ha, Ho.
  destruct lat as [la'|], lon as [lo'|]; try discriminate.
  destruct (Qlt_bool (Qabs la') eps && Qlt_bool (Qabs lo') eps)%bool eqn:E;
    [discriminate|].
  inversion H; subst. now rewrite Ha, Ho in E.
Qed.

(** The coordinates of a returned record went through the filter. *)
Lemma read_photo_meta_coords (w : World) (p : Path) (r : PhotoMeta.t) :
  outcome (read_photo_meta w p) = Ok r ->
  exists lat lon,
    _drop_if_zero_coord lat lon = (PhotoMeta.lat r, PhotoMeta.lon r).
Proof.
  unfold read_photo_meta, invoke, mbind, mret, outcome.
  destruct (_read_takeout_sidecar w p) as [t|e]; [|discriminate].
  destruct t as [[s_lat s_lon] s_dt].
  destruct (_ && _)%bool; [destruct (_pillow_extract w p)|];
    match goal with
    | |- context [_drop_if_zero_coord ?a ?b] =>
        destruct (_drop_if_zero_coord a b) as [lat lon] eqn:E;
        intro H; inversion H; subst; exists a, b; exact E
    end.
Qed.

(** C4. With both coordinates present, [_drop_if_zero_coord] answers
    [(None, None)] when both magnitudes are below 1e-9 and leaves the pair
    as it is when one of them is at least 1e-9; a pair with a missing
    component is left as it is. So (0, 0) is dropped and (0, 5) is kept, and
    no record returned by [read_photo_meta] carries a pair with both
    magnitudes below 1e-9. *)
Theorem drop_if_zero_coord_spec :
  (forall la lo : Q,
      Qabs la < eps -> Qabs lo < eps ->
      _drop_if_zero_coord (Some la) (Some lo) = (None, None))
  /\ (forall la lo : Q,
        eps <= Qabs la \/ eps <= Qabs lo ->
        _drop_if_zero_coord (Some la) (Some lo) = (Some la, Some lo))
  /\ (forall lat lon : option Q,
        lat = None \/ lon = None ->
        _drop_if_zero_coord lat lon = (lat, lon))
  /\ _drop_if_zero_coord (Some 0) (Some 0) = (None, None)
  /\ _drop_if_zero_coord (Some 0) (Some 5) = (Some 0, Some 5)
  /\ (forall w p r la lo,
        outcome (read_photo_meta w p) = Ok r ->
        PhotoMeta.lat r = Some la -> PhotoMeta.lon r = Some lo ->
        ~ (Qabs la < eps /\ Qabs lo < eps)).
Proof.
  split; [|split; [|split; [|split; [|split]]]]; try reflexivity.
  - intros la lo Ha Ho. unfold _drop_if_zero_coord.
    apply Qlt_bool_iff in Ha, Ho. now rewrite Ha, Ho.
  - intros la lo H. unfold _drop_if_zero_coord.
    destruct H as [H | H]; rewrite (Qlt_bool_false _ _ H);
      [reflexivity | now rewrite andb_false_r].
  - intros lat lon [-> | ->]; [reflexivity | now destruct lat].
  - intros w p r la lo Hr Hla Hlo.
    destruct (read_photo_meta_coords w p r Hr) as [lat [lon H]].
    rewrite Hla, Hlo in H. exact (drop_never_sentinel lat lon la lo H).
Qed.

(** * Further properties of the code *)

(** ** Bounds of a point list *)

Lemma Qlt_bool_false_le (x y : Q) : Qlt_bool x y = false -> y <= x.
Proof.
  unfold Qlt_bool. rewrite negb_false_iff. apply Qle_bool_iff.
Qed.

Lemma min_from_le (xs : list Q) :
  forall m, min_from m xs <= m /\ (forall x, In x xs -> min_from m xs <= x).
Proof.
  induction xs as [|y xs IH]; intro m; simpl.
  - split; [apply Qle_refl | contradiction].
  - destruct (IH (if Qlt_bool y m then y else m)) as [H1 H2].
    destruct (Qlt_bool y m) eqn:E.
    + apply Qlt_bool_iff in E. split.
      * apply Qle_trans with y; [exact H1 | now apply Qlt_le_weak].
      * intros x [<- | Hx]; [exact H1 | now apply H2].
    + apply Qlt_bool_false_le in E. split; [exact H1|].
      intros x [<- | Hx]; [apply Qle_trans with m; assumption | now apply H2].
Qed.

Lemma max_from_ge (xs : list Q) :
  forall m, m <= max_from m xs /\ (forall x, In x xs -> x <= max_from m xs).
Proof.
  induction xs as [|y xs IH]; intro m; simpl.
  - split; [apply Qle_refl | contradiction].
  - destruct (IH (if Qlt_bool m y then y else m)) as [H1 H2].
    destruct (Qlt_bool m y) eqn:E.
    + apply Qlt_bool_iff in E. split.
      * apply Qle_trans with y; [now apply Qlt_le_weak | exact H1].
      * intros x [<- | Hx]; [exact H1 | now apply H2].
    + apply Qlt_bool_false_le in E. split; [exact H1|].
      intros x [<- | Hx]; [apply Qle_trans with m; assumption | now apply H2].
Qed.

Lemma min_from_in (xs : list Q) :
  forall m, In (min_from m xs) (m :: xs).
Proof.
  induction xs as [|y xs IH]; intro m; simpl; [now left|].
  destruct (IH (if Qlt_bool y m then y else m)) as [H | H].
  - destruct (Qlt_bool y m); rewrite <- H; simpl; auto.
  - right. now right.
Qed.

Lemma max_from_in (xs : list Q) :
  forall m, In (max_from m xs) (m :: xs).
Proof.
  induction xs as [|y xs IH]; intro m; simpl; [now left|].
  destruct (IH (if Qlt_bool m y then y else m)) as [H | H].
  - destruct (Qlt_bool m y); rewrite <- H; simpl; auto.
  - right. now right.
Qed.

(** X1. [bounds_from_points] never raises; it answers [None] exactly for
    the empty list, and otherwise a box that holds every point and whose
    four sides are coordinates of points of the list. *)
Theorem bounds_from_points_spec (points : list (Q * Q)) :
  exists b,
    bounds_from_points points = Ok b
    /\ (b = None <-> points = [])
    /\ (forall min_lat min_lon max_lat max_lon,
          b = Some (min_lat, min_lon, max_lat, max_lon) ->
          (forall lat lon,
              In (lat, lon) points ->
              min_lat <= lat <= max_lat /\ min_lon <= lon <= max_lon)
          /\ In min_lat (map fst points) /\ In max_lat (map fst points)
          /\ In min_lon (map snd points) /\ In max_lon (map snd points)).
Proof.
  destruct points as [|[la0 lo0] ps].
  - exists None. split; [reflexivity|]. split; [split; reflexivity|]. discriminate.
  - eexists. split; [reflexivity|]. split; [split; discriminate|].
    intros a b c d H. inversion H; subst; clear H. simpl map.
    split; [|repeat split; first [apply min_from_in | apply max_from_in]].
    intros lat lon Hin.
    destruct (min_from_le (map fst ps) la0) as [A1 A2].
    destruct (min_from_le (map snd ps) lo0) as [B1 B2].
    destruct (max_from_ge (map fst ps) la0) as [C1 C2].
    destruct (max_from_ge (map snd ps) lo0) as [D1 D2].
    destruct Hin as [Hin | Hin].
    + inversion Hin; subst. repeat split; assumption.
    + pose proof (in_map fst _ _ Hin) as Hf.
      pose proof (in_map snd _ _ Hin) as Hs. simpl in Hf, Hs.
      repeat split; auto.
Qed.

(** ** The directory scan *)

Lemma scan_loop_all (is_file : Path -> bool) (exts : list string)
    (it : list Path) :
  forall count,
    scan_loop is_file exts 0 it count = filter (is_image is_file exts) it.
Proof.
  induction it as [|p it IH]; intro count; simpl; [reflexivity|].
  destruct (is_image is_file exts p); [f_equal|]; apply IH.
Qed.

Lemma scan_loop_limited (is_file : Path -> bool) (exts : list string)
    (limit : Z) (it : list Path) :
  (0 < limit)%Z ->
  forall count,
    (0 <= count < limit)%Z ->
    scan_loop is_file exts limit it count
    = firstn (Z.to_nat (limit - count)) (filter (is_image is_file exts) it).
Proof.
  intro Hl. induction it as [|p it IH]; intros count Hc; simpl.
  - now rewrite firstn_nil.
  - destruct (is_image is_file exts p); [|now apply IH].
    replace (Z.to_nat (limit - count))
      with (S (Z.to_nat (limit - (count + 1)))) by lia.
    simpl. f_equal.
    destruct (Z.eqb_spec limit 0) as [E | E]; [lia|]. simpl.
    destruct (Z.geb_spec (count + 1) limit) as [G | G].
    + replace (Z.to_nat (limit - (count + 1))) with 0%nat by lia.
      reflexivity.
    + apply IH. lia.
Qed.

Lemma scan_loop_negative (is_file : Path -> bool) (exts : list string)
    (limit : Z) (it : list Path) :
  (limit < 0)%Z ->
  forall count,
    (0 <= count)%Z ->
    scan_loop is_file exts limit it count
    = firstn 1 (filter (is_image is_file exts) it).
Proof.
  intro Hl. induction it as [|p it IH]; intros count Hc; simpl;
    [reflexivity|].
  destruct (is_image is_file exts p); [|now apply IH].
  f_equal.
  destruct (Z.eqb_spec limit 0) as [E | E]; [lia|]. simpl.
  destruct (Z.geb_spec (count + 1) limit) as [G | G]; [|lia].
  reflexivity.
Qed.

(** X2. [scan_images] yields, in the order of the directory iterator, the
    entries that are files with an allowed extension (compared in lower
    case): all of them for [limit = 0], the first [limit] of them for a
    positive limit, and only the first one for a negative limit. *)
Theorem scan_images_spec (is_file : Path -> bool) (rglob glob : list Path)
    (exts : list string) (recurse : bool) (limit : Z) :
  let matching :=
    filter (is_image is_file exts) (if recurse then rglob else glob) in
  scan_images is_file rglob glob exts recurse limit
  = if Z.eqb limit 0 then matching
    else if Z.ltb 0 limit then firstn (Z.to_nat limit) matching
         else firstn 1 matching.
Proof.
  intro matching. unfold scan_images.
  destruct (Z.eqb_spec limit 0) as [-> | E]; [apply scan_loop_all|].
  destruct (Z.ltb_spec 0 limit) as [L | L].
  - rewrite scan_loop_limited by lia. now rewrite Z.sub_0_r.
  - apply scan_loop_negative; lia.
Qed.

Lemma suffix_unnamed (p : Path) : name p = "" -> suffix p = "".
Proof. intro H. unfold suffix. now rewrite H. Qed.

Lemma lower_empty (s : string) : lower s = "" -> s = "".
Proof. destruct s; [reflexivity | discriminate]. Qed.

Lemma in_exts_In (x : string) (exts : list string) :
  in_exts x exts = true -> In x exts.
Proof.
  unfold in_exts. intro H. apply existsb_exists in H.
  destruct H as [y [Hy E]]. apply String.eqb_eq in E. now subst.
Qed.

Lemma In_firstn {A : Type} (n : nat) :
  forall (l : list A) (x : A), In x (firstn n l) -> In x l.
Proof.
  induction n as [|n IH]; intros l x H; [contradiction|].
  destruct l as [|y l]; [contradiction|].
  destruct H as [H | H]; [now left | right; now apply IH].
Qed.

Lemma scanned_is_image (is_file : Path -> bool) (rglob glob : list Path)
    (exts : list string) (recurse : bool) (limit : Z) (p : Path) :
  In p (scan_images is_file rglob glob exts recurse limit) ->
  In p (if recurse then rglob else glob)
  /\ is_image is_file exts p = true.
Proof.
  pose proof (scan_images_spec is_file rglob glob exts recurse limit) as E.
  cbv zeta in E. rewrite E. intro H. apply filter_In.
  destruct (Z.eqb limit 0); [exact H|].
  destruct (Z.ltb 0 limit); eapply In_firstn; exact H.
Qed.

Lemma scanned_named (is_file : Path -> bool) (rglob glob : list Path)
    (recurse : bool) (limit : Z) (p : Path) :
  In p (scan_images is_file rglob glob allowed_exts recurse limit) ->
  name p <> "".
Proof.
  intros H Hn. apply scanned_is_image in H. destruct H as [_ H].
  unfold is_image in H. apply andb_true_iff in H. destruct H as [_ H].
  rewrite (suffix_unnamed p Hn) in H. discriminate H.
Qed.

(** X3. Every path that [scan_images] yields under the configured
    extensions is an entry of the iterator, a file, has an allowed
    extension and a name. For such a path [read_photo_meta] returns a
    record, unless the existence check of one of its two sidecar candidates
    raises: then the resolver raises that exception, and nothing else makes
    it fail. *)
Theorem scanned_photo_is_resolved (w : World) (is_file : Path -> bool)
    (rglob glob : list Path) (recurse : bool) (limit : Z) (p : Path) :
  In p (scan_images is_file rglob glob allowed_exts recurse limit) ->
  In p (if recurse then rglob else glob)
  /\ is_file p = true
  /\ In (lower (suffix p)) allowed_exts
  /\ name p <> ""
  /\ ((exists r, outcome (read_photo_meta w p) = Ok r)
      \/ exists e c,
          In c [mkPath (parent p) (name p ++ ".json");
                mkPath (parent p) (stem p ++ ".json")]
          /\ fs_exists w c = Raise e
          /\ outcome (read_photo_meta w p) = Raise e).
Proof.
  intro H. pose proof (scanned_named _ _ _ _ _ _ H) as Hn.
  destruct (scanned_is_image _ _ _ _ _ _ _ H) as [Hin Him].
  unfold is_image in Him. apply andb_true_iff in Him.
  destruct Him as [Hf He].
  split; [exact Hin|]. split; [exact Hf|].
  split; [now apply in_exts_In|]. split; [exact Hn|].
  now apply read_photo_meta_outcome.
Qed.

(** ** The repository *)

Lemma points_add (self : PhotoRepository.t) (m : PhotoMeta.t) :
  PhotoRepository.points (PhotoRepository.add self m)
  = (PhotoRepository.points self
     ++ match PhotoMeta.lat m, PhotoMeta.lon m with
        | Some lat, Some lon => [(lat, lon)]
        | _, _ => []
        end)%list.
Proof.
  unfold PhotoRepository.points, PhotoRepository.add. simpl.
  rewrite flat_map_app. simpl. now rewrite app_nil_r.
Qed.

Lemma points_length (self : PhotoRepository.t) :
  List.length (PhotoRepository.points self) = List.length (gps_paths self).
Proof.
  unfold PhotoRepository.points, gps_paths, PhotoRepository.items.
  rewrite length_map.
  induction (PhotoRepository._items self) as [|m l IH]; simpl;
    [reflexivity|].
  unfold PhotoRepository.has_gps at 1.
  destruct (PhotoMeta.lat m), (PhotoMeta.lon m); simpl; now rewrite IH.
Qed.

(** X4. [points] lists the coordinates of exactly the stored records that
    have both, in the order they were added: [add] appends the pair of a
    record with both coordinates and nothing otherwise, [skip] changes
    neither the records nor the points, and there are as many points as
    paths handed to the thumbnail generator. *)
Theorem repository_points :
  (forall self m,
      PhotoRepository.points (PhotoRepository.add self m)
      = (PhotoRepository.points self
         ++ match PhotoMeta.lat m, PhotoMeta.lon m with
            | Some lat, Some lon => [(lat, lon)]
            | _, _ => []
            end)%list)
  /\ (forall self p,
        PhotoRepository.points (PhotoRepository.skip self p)
        = PhotoRepository.points self
        /\ PhotoRepository.items (PhotoRepository.skip self p)
           = PhotoRepository.items self)
  /\ (forall self lat lon,
        In (lat, lon) (PhotoRepository.points self)
        <-> exists m, In m (PhotoRepository.items self)
                      /\ PhotoMeta.lat m = Some lat
                      /\ PhotoMeta.lon m = Some lon)
  /\ (forall self,
        List.length (PhotoRepository.points self)
        = List.length (gps_paths self)).
Proof.
  split; [exact points_add|]. split; [intros; split; reflexivity|].
  split; [|exact points_length].
  intros self lat lon. unfold PhotoRepository.points, PhotoRepository.items.
  rewrite in_flat_map. split.
  - intros [m [Hm Hin]]. exists m. split; [exact Hm|].
    destruct (PhotoMeta.lat m), (PhotoMeta.lon m); simpl in Hin;
      try contradiction.
    destruct Hin as [Hin | []]. inversion Hin. now subst.
  - intros [m [Hm [Hla Hlo]]]. exists m. split; [exact Hm|].
    rewrite Hla, Hlo. now left.
Qed.

(** ** The features of the GeoJSON report *)

(** X5. [to_geojson] builds one feature per point of [points], in the same
    order, and writes the coordinates of each as [[lon, lat]]: the pair of
    the point with its components swapped. *)
Theorem features_follow_points (img_rel_of : Path -> Path -> option string)
    (self : PhotoRepository.t) (out_html_path : Path)
    (thumbs : option (list (Path * string))) :
  map coordinates (to_geojson_features img_rel_of self out_html_path thumbs)
  = map (fun latlon => [snd latlon; fst latlon])
        (PhotoRepository.points self).
Proof.
  unfold to_geojson_features, PhotoRepository.points.
  induction (PhotoRepository._items self) as [|m l IH]; simpl;
    [reflexivity|].
  rewrite !map_app, IH.
  destruct (PhotoMeta.lat m), (PhotoMeta.lon m); reflexivity.
Qed.

Lemma get_dict_put {V : Type} (d : list (string * V)) (k k' : string) (v : V) :
  get (dict_put d k v) k' = if String.eqb k k' then Some v else get d k'.
Proof.
  induction d as [|[k0 v0] d IH]; simpl.
  - reflexivity.
  - destruct (String.eqb_spec k0 k) as [-> | Hne]; simpl.
    + destruct (String.eqb k k'); reflexivity.
    + rewrite IH. destruct (String.eqb_spec k0 k') as [-> | Hne'].
      * destruct (String.eqb_spec k k') as [-> | _]; [contradiction|reflexivity].
      * reflexivity.
Qed.

Lemma get_fold_other {V : Type} (es : list (string * V)) (k : string) :
  (forall e, In e es -> fst e <> k) ->
  forall d,
    get (fold_left (fun d kv => dict_put d (fst kv) (snd kv)) es d) k
    = get d k.
Proof.
  induction es as [|e es IH]; intros H d; simpl; [reflexivity|].
  rewrite IH by (intros e' He'; apply H; now right).
  rewrite get_dict_put.
  destruct (String.eqb_spec (fst e) k) as [E | _]; [|reflexivity].
  exfalso. apply (H e); [now left | exact E].
Qed.

Lemma get_fold_in {V : Type} (es : list (string * V)) (k : string) (v : V) :
  NoDup (map fst es) -> In (k, v) es ->
  forall d,
    get (fold_left (fun d kv => dict_put d (fst kv) (snd kv)) es d) k
    = Some v.
Proof.
  induction es as [|e es IH]; intros Hnd Hin d; [contradiction|].
  simpl in Hnd. inversion Hnd as [|x l Hnotin Hnd']; subst. simpl.
  destruct Hin as [-> | Hin].
  - simpl. rewrite get_fold_other.
    + rewrite get_dict_put. now rewrite String.eqb_refl.
    + intros e' He' E. apply Hnotin. simpl. rewrite <- E. now apply in_map.
  - now apply IH.
Qed.

Lemma get_fold_keys {V : Type} (es : list (string * V)) (k : string) :
  forall d,
    get (fold_left (fun d kv => dict_put d (fst kv) (snd kv)) es d) k <> None ->
    In k (map fst es) \/ get d k <> None.
Proof.
  induction es as [|e es IH]; intros d H; simpl in *; [now right|].
  destruct (IH _ H) as [Hin | Hd]; [left; now right|].
  rewrite get_dict_put in Hd.
  destruct (String.eqb_spec (fst e) k) as [E | _];
    [left; now left | now right].
Qed.

Lemma get_None_other {V : Type} (d : list (string * V)) (k : string) :
  get d k = None -> forall e, In e d -> fst e <> k.
Proof.
  induction d as [|[k0 v0] d IH]; simpl; intros H e He; [contradiction|].
  destruct (String.eqb_spec k0 k) as [E | Hne]; [discriminate|].
  destruct He as [<- | He]; [exact Hne | now apply IH].
Qed.

Lemma props_base (m : PhotoMeta.t) (thumb_rel img_rel : option string)
    (k : string) :
  get (PhotoMeta.extra m) k = None -> k <> "thumb" -> k <> "img_rel" ->
  get (props_of m thumb_rel img_rel) k
  = get [("path", Some (name (PhotoMeta.path m)));
         ("datetime", PhotoMeta.datetime m);
         ("make", PhotoMeta.make m);
         ("model", PhotoMeta.model m)] k.
Proof.
  intros He Ht Hi. unfold props_of, dict_display.
  rewrite !fold_left_app.
  rewrite get_fold_other.
  - rewrite get_fold_other; [reflexivity|].
    intros e Hin E. apply in_map_iff in Hin. destruct Hin as [kv [<- Hkv]].
    exact (get_None_other _ _ He kv Hkv E).
  - intros e [<- | [<- | []]]; simpl; congruence.
Qed.

(** X6. In the properties of a feature, [thumb] and [img_rel] always hold
    the thumbnail and the relative path: an [extra] entry of that name does
    not reach the output. An [extra] entry of any other name is written,
    also over [path], [datetime], [make] and [model]; and those four hold
    the values of the record when [extra] has no entry of their name. *)
Theorem props_of_spec (m : PhotoMeta.t) (thumb_rel img_rel : option string) :
  get (props_of m thumb_rel img_rel) "thumb" = Some thumb_rel
  /\ get (props_of m thumb_rel img_rel) "img_rel" = Some img_rel
  /\ (forall k v,
        NoDup (map fst (PhotoMeta.extra m)) ->
        In (k, v) (PhotoMeta.extra m) ->
        k <> "thumb" -> k <> "img_rel" ->
        get (props_of m thumb_rel img_rel) k = Some (Some v))
  /\ (get (PhotoMeta.extra m) "path" = None ->
      get (props_of m thumb_rel img_rel) "path"
      = Some (Some (name (PhotoMeta.path m))))
  /\ (get (PhotoMeta.extra m) "datetime" = None ->
      get (props_of m thumb_rel img_rel) "datetime"
      = Some (PhotoMeta.datetime m))
  /\ (get (PhotoMeta.extra m) "make" = None ->
      get (props_of m thumb_rel img_rel) "make" = Some (PhotoMeta.make m))
  /\ (get (PhotoMeta.extra m) "model" = None ->
      get (props_of m thumb_rel img_rel) "model" = Some (PhotoMeta.model m)).
Proof.
  split; [|split; [|split; [|repeat split]]].
  - unfold props_of, dict_display. rewrite !fold_left_app. simpl.
    now rewrite !get_dict_put.
  - unfold props_of, dict_display. rewrite !fold_left_app. simpl.
    now rewrite !get_dict_put.
  - intros k v Hnd Hin Ht Hi. unfold props_of, dict_display.
    rewrite !fold_left_app. rewrite get_fold_other.
    + apply get_fold_in.
      * rewrite map_map. simpl. exact Hnd.
      * apply in_map_iff. exists (k, v). now split.
    + intros e [<- | [<- | []]]; simpl; congruence.
  - intro H. rewrite props_base by (assumption || discriminate). reflexivity.
  - intro H. rewrite props_base by (assumption || discriminate). reflexivity.
  - intro H. rewrite props_base by (assumption || discriminate). reflexivity.
  - intro H. rewrite props_base by (assumption || discriminate). reflexivity.
Qed.

(** ** What the resolver puts into a record *)

Lemma pillow_extract_inv (w : World) (p : Path) (pm : PhotoMeta.t) :
  _pillow_extract w p = Some pm ->
  exists data gps_data,
    pil_getexif w p = Ok data
    /\ gps_data_of (GPSInfo data) = Ok gps_data
    /\ name p <> ""
    /\ PhotoMeta.path pm = p
    /\ PhotoMeta.extra pm = altitude_extra gps_data
    /\ PhotoMeta.datetime pm
       = str_if (if tag_truthy (DateTimeOriginal data)
                 then DateTimeOriginal data else DateTime data)
    /\ PhotoMeta.make pm = str_if (Make data)
    /\ PhotoMeta.model pm = str_if (Model data)
    /\ (gps_data = None ->
        PhotoMeta.lat pm = None /\ PhotoMeta.lon pm = None).
Proof.
  unfold _pillow_extract, _pillow_extract_body, open_file.
  destruct (String.eqb (name p) "") eqn:E; [discriminate|].
  apply String.eqb_neq in E.
  destruct (pil_getexif w p) as [data|]; [|discriminate].
  unfold rbind, try_except. intro H. exists data.
  destruct (gps_data_of (GPSInfo data)) as [gps_data|]; [|discriminate].
  exists gps_data.
  destruct gps_data as [g|]; cbn in H; inversion H; subst; cbn;
    repeat split; try assumption; try reflexivity; discriminate.
Qed.

Lemma altitude_extra_cases (gps_data : option GpsData) :
  altitude_extra gps_data = []
  \/ exists a, altitude_extra gps_data = [("altitude_m", a)].
Proof.
  unfold altitude_extra. destruct gps_data as [g|]; [|now left].
  destruct (GPSAltitude g) as [[num den]|]; [|now left].
  destruct (truediv num den); [right; eexists; reflexivity | now left].
Qed.

(** The record the resolver returns, field by field. *)
Lemma read_photo_meta_fields (w : World) (p : Path) (r : PhotoMeta.t) :
  outcome (read_photo_meta w p) = Ok r ->
  exists s_lat s_lon s_dt,
    _read_takeout_sidecar w p = Ok (s_lat, s_lon, s_dt)
    /\ PhotoMeta.path r = p
    /\ match _exifread_extract w p with
       | Some m =>
           PhotoMeta.make r = PhotoMeta.make m
           /\ PhotoMeta.model r = PhotoMeta.model m
           /\ PhotoMeta.extra r = []
           /\ PhotoMeta.datetime r
              = fill_from_sidecar (PhotoMeta.datetime m) s_dt
           /\ (PhotoMeta.lat r, PhotoMeta.lon r)
              = _drop_if_zero_coord
                  (fill_from_sidecar (PhotoMeta.lat m) s_lat)
                  (fill_from_sidecar (PhotoMeta.lon m) s_lon)
       | None =>
           if (is_None s_lat || is_None s_lon)%bool then
             match _pillow_extract w p with
             | Some pm =>
                 PhotoMeta.make r = PhotoMeta.make pm
                 /\ PhotoMeta.model r = PhotoMeta.model pm
                 /\ PhotoMeta.extra r = dict_update [] (PhotoMeta.extra pm)
                 /\ PhotoMeta.datetime r
                    = fill_from_pillow s_dt (PhotoMeta.datetime pm)
                 /\ (PhotoMeta.lat r, PhotoMeta.lon r)
                    = _drop_if_zero_coord
                        (fill_from_pillow s_lat (PhotoMeta.lat pm))
                        (fill_from_pillow s_lon (PhotoMeta.lon pm))
             | None =>
                 PhotoMeta.make r = None /\ PhotoMeta.model r = None
                 /\ PhotoMeta.extra r = []
                 /\ PhotoMeta.datetime r = s_dt
                 /\ (PhotoMeta.lat r, PhotoMeta.lon r)
                    = _drop_if_zero_coord s_lat s_lon
             end
           else
             PhotoMeta.make r = None /\ PhotoMeta.model r = None
             /\ PhotoMeta.extra r = []
             /\ PhotoMeta.datetime r = s_dt
             /\ (PhotoMeta.lat r, PhotoMeta.lon r)
                = _drop_if_zero_coord s_lat s_lon
       end.
Proof.
  unfold read_photo_meta, invoke, mbind, mret, outcome.
  destruct (_read_takeout_sidecar w p) as [t|e]; [|discriminate].
  destruct t as [[s_lat s_lon] s_dt]. intro H.
  exists s_lat, s_lon, s_dt. split; [reflexivity|].
  destruct (_exifread_extract w p) as [m|].
  - rewrite andb_false_r in H. simpl in H.
    destruct (_drop_if_zero_coord _ _) as [lat lon] eqn:E.
    inversion H; subst; simpl. rewrite <- E. repeat split.
  - simpl field in H. rewrite andb_true_r in H.
    assert (Hs : forall A (x : option A), fill_from_sidecar None x = x)
      by (intros A [x|]; reflexivity).
    rewrite !Hs in H.
    destruct (is_None s_lat || is_None s_lon)%bool.
    + destruct (_pillow_extract w p) as [pm|];
        destruct (_drop_if_zero_coord _ _) as [lat lon] eqn:E;
        inversion H; subst; simpl; rewrite <- E; repeat split.
    + destruct (_drop_if_zero_coord _ _) as [lat lon] eqn:E.
      inversion H; subst; simpl. rewrite <- E. repeat split.
Qed.

Lemma read_photo_meta_path (w : World) (p : Path) (r : PhotoMeta.t) :
  outcome (read_photo_meta w p) = Ok r -> PhotoMeta.path r = p.
Proof.
  intro H. destruct (read_photo_meta_fields w p r H) as [a [b [c [_ [E _]]]]].
  exact E.
Qed.

Lemma read_photo_meta_extra (w : World) (p : Path) (r : PhotoMeta.t) :
  outcome (read_photo_meta w p) = Ok r ->
  PhotoMeta.extra r = []
  \/ exists a, PhotoMeta.extra r = [("altitude_m", a)].
Proof.
  intro H. destruct (read_photo_meta_fields w p r H) as [a [b [c [_ [_ F]]]]].
  destruct (_exifread_extract w p) as [m|]; [left; tauto|].
  destruct (is_None a || is_None b)%bool; [|left; tauto].
  destruct (_pillow_extract w p) as [pm|] eqn:Epm; [|left; tauto].
  destruct F as [_ [_ [F _]]]. rewrite F.
  destruct (pillow_extract_inv w p pm Epm)
    as [data [gps_data [_ [_ [_ [_ [-> _]]]]]]].
  destruct (altitude_extra_cases gps_data) as [-> | [x ->]];
    [now left | right; now exists x].
Qed.

(** X7. When the fast parser returns a record and the sidecar reader
    returns its triple, the resolver invokes no fallback, takes make and
    model from the header alone and leaves [extra] empty; the datetime and
    each coordinate are the header's when the header has one, and the
    sidecar's otherwise; the pair then goes through the sentinel filter. *)
Theorem header_fields_win (w : World) (p : Path) (m : PhotoMeta.t)
    (s_lat s_lon : option Q) (s_dt : option string) :
  _exifread_extract w p = Some m ->
  _read_takeout_sidecar w p = Ok (s_lat, s_lon, s_dt) ->
  exists lat lon,
    read_photo_meta w p
    = ([Exifread; Sidecar],
       Ok (PhotoMeta.mk p lat lon
             (match PhotoMeta.datetime m with
              | Some d => Some d
              | None => s_dt
              end)
             (PhotoMeta.make m) (PhotoMeta.model m) []))
    /\ (lat, lon)
       = _drop_if_zero_coord
           (match PhotoMeta.lat m with
            | Some x => Some x
            | None => s_lat
            end)
           (match PhotoMeta.lon m with
            | Some y => Some y
            | None => s_lon
            end).
Proof.
  intros Hm Hs.
  assert (Hf : forall A (x y : option A),
             fill_from_sidecar x y
             = match x with Some a => Some a | None => y end)
    by (intros A [x|] [y|]; reflexivity).
  unfold read_photo_meta, invoke, mbind, mret. rewrite Hm, Hs.
  rewrite andb_false_r. simpl. rewrite !Hf.
  destruct (_drop_if_zero_coord _ _) as [lat lon] eqn:E.
  exists lat, lon. split; reflexivity.
Qed.

(** X8. When the fast parser fails and the sidecar holds both coordinates,
    the fallback is not invoked: the record has the sidecar position
    (unless it is the zero sentinel) and datetime, and no make, model or
    altitude, whatever the decoder could have read. *)
Theorem sidecar_position_skips_pillow (w : World) (p : Path) (a b : Q)
    (s_dt : option string) :
  _exifread_extract w p = None ->
  _read_takeout_sidecar w p = Ok (Some a, Some b, s_dt) ->
  exists lat lon,
    read_photo_meta w p
    = ([Exifread; Sidecar], Ok (PhotoMeta.mk p lat lon s_dt None None []))
    /\ (lat, lon) = _drop_if_zero_coord (Some a) (Some b).
Proof.
  intros Hm Hs. unfold read_photo_meta, invoke, mbind, mret.
  rewrite Hm, Hs. cbn -[_drop_if_zero_coord].
  destruct (_drop_if_zero_coord (Some a) (Some b)) as [lat lon].
  exists lat, lon. destruct s_dt; split; reflexivity.
Qed.

(** X9. In the feature of a record that the resolver returned, [path] is
    the file name of the photo and [datetime], [make] and [model] are the
    fields of the record; the only other property besides [thumb] and
    [img_rel] is the altitude. *)
Theorem resolved_record_props (w : World) (p : Path) (r : PhotoMeta.t)
    (thumb_rel img_rel : option string) :
  outcome (read_photo_meta w p) = Ok r ->
  get (props_of r thumb_rel img_rel) "path" = Some (Some (name p))
  /\ get (props_of r thumb_rel img_rel) "datetime"
     = Some (PhotoMeta.datetime r)
  /\ get (props_of r thumb_rel img_rel) "make" = Some (PhotoMeta.make r)
  /\ get (props_of r thumb_rel img_rel) "model" = Some (PhotoMeta.model r)
  /\ (forall k,
        get (props_of r thumb_rel img_rel) k <> None ->
        In k ["path"; "datetime"; "make"; "model"; "altitude_m";
              "thumb"; "img_rel"]).
Proof.
  intro H. pose proof (read_photo_meta_path w p r H) as Hp.
  destruct (props_of_spec r thumb_rel img_rel)
    as [_ [_ [_ [P1 [P2 [P3 P4]]]]]].
  assert (He : forall k, k <> "altitude_m" -> get (PhotoMeta.extra r) k = None).
  { intros k Hk.
    destruct (read_photo_meta_extra w p r H) as [-> | [a ->]];
      [reflexivity|]. cbn [get].
    destruct (String.eqb_spec "altitude_m" k) as [E | _];
      [now contradiction Hk | reflexivity]. }
  rewrite <- Hp at 1.
  split; [apply P1, He; discriminate|].
  split; [apply P2, He; discriminate|].
  split; [apply P3, He; discriminate|].
  split; [apply P4, He; discriminate|].
  intros k Hk. unfold props_of, dict_display in Hk.
  apply get_fold_keys in Hk. destruct Hk as [Hk | Hk]; [|now contradiction Hk].
  rewrite !map_app, map_map in Hk. cbn [map fst] in Hk.
  apply in_app_or in Hk. destruct Hk as [Hk | Hk]; [simpl in *; tauto|].
  apply in_app_or in Hk. destruct Hk as [Hk | Hk]; [|simpl in *; tauto].
  destruct (read_photo_meta_extra w p r H) as [E | [a E]]; rewrite E in Hk;
    simpl in Hk; [contradiction|].
  destruct Hk as [<- | []]. simpl. tauto.
Qed.

(** ** The loop over the scanned photos *)

Lemma main_loop_invariant (w : World) (paths : list Path) :
  forall (st st' : MainState) (done : list Path),
    main_loop w paths st = Ok st' ->
    map PhotoMeta.path (PhotoRepository.items (repo st)) = done ->
    total st = List.length done ->
    with_gps st = List.length (PhotoRepository.points (repo st)) ->
    without_gps st = List.length (PhotoRepository._skipped (repo st)) ->
    total st = (with_gps st + without_gps st)%nat ->
    PhotoRepository._skipped (repo st)
    = map PhotoMeta.path
        (filter (fun m => negb (PhotoRepository.has_gps m))
                (PhotoRepository.items (repo st))) ->
    map PhotoMeta.path (PhotoRepository.items (repo st')) = (done ++ paths)%list
    /\ total st' = List.length (done ++ paths)%list
    /\ with_gps st' = List.length (PhotoRepository.points (repo st'))
    /\ without_gps st' = List.length (PhotoRepository._skipped (repo st'))
    /\ total st' = (with_gps st' + without_gps st')%nat
    /\ PhotoRepository._skipped (repo st')
       = map PhotoMeta.path
           (filter (fun m => negb (PhotoRepository.has_gps m))
                   (PhotoRepository.items (repo st'))).
Proof.
  induction paths as [|p paths IH]; intros st st' done Hl I1 I2 I3 I4 I5 I6.
  - simpl in Hl. inversion Hl; subst. rewrite app_nil_r. repeat split; assumption.
  - simpl in Hl. unfold main_step in Hl.
    destruct (outcome (read_photo_meta w p)) as [m|e] eqn:Hm;
      [|discriminate]. cbn [rbind] in Hl.
    pose proof (read_photo_meta_path w p m Hm) as Hp.
    replace (done ++ p :: paths)%list with ((done ++ [p]) ++ paths)%list
      by (rewrite <- app_assoc; reflexivity).
    destruct (is_None (PhotoMeta.lat m) || is_None (PhotoMeta.lon m))%bool eqn:E;
      cbn [rbind] in Hl;
      (eapply IH; [exact Hl|..]); cbn [repo total with_gps without_gps];
      unfold PhotoRepository.items in *;
      try rewrite points_add;
      cbn [PhotoRepository.add PhotoRepository.skip PhotoRepository._items
           PhotoRepository._skipped];
      rewrite ?map_app, ?filter_app, ?length_app, ?map_app;
      cbn [map filter List.length]; unfold PhotoRepository.has_gps;
      destruct (PhotoMeta.lat m), (PhotoMeta.lon m); try discriminate E;
      cbn [is_None negb andb map List.length];
      rewrite ?app_nil_r, ?length_app; cbn [List.length];
      try (rewrite I1, Hp; reflexivity); try lia;
      try (rewrite I6, Hp; reflexivity); try (rewrite I6; reflexivity);
      change (PhotoRepository.points (PhotoRepository.skip (repo st) p))
        with (PhotoRepository.points (repo st)); lia.
Qed.

(** X10. When the loop of [main] finishes, its counters agree with the
    repository: [total] is the number of photos and of stored records, the
    records are those of the photos in scan order, [with_gps] is the number
    of points and of thumbnail paths, [without_gps] the number of skipped
    paths, the two add up to [total], and the skipped paths are exactly the
    paths of the records that lack a coordinate. *)
Theorem main_loop_counts (w : World) (paths : list Path) (st : MainState) :
  main_loop w paths main_init = Ok st ->
  map PhotoMeta.path (PhotoRepository.items (repo st)) = paths
  /\ total st = List.length paths
  /\ with_gps st = List.length (PhotoRepository.points (repo st))
  /\ with_gps st = List.length (gps_paths (repo st))
  /\ without_gps st = List.length (PhotoRepository._skipped (repo st))
  /\ total st = (with_gps st + without_gps st)%nat
  /\ PhotoRepository._skipped (repo st)
     = map PhotoMeta.path
         (filter (fun m => negb (PhotoRepository.has_gps m))
                 (PhotoRepository.items (repo st))).
Proof.
  intro H.
  destruct (main_loop_invariant w paths main_init st [] H
              eq_refl eq_refl eq_refl eq_refl eq_refl eq_refl)
    as [A [B [C [D [E F]]]]].
  repeat split; try assumption. rewrite C. apply points_length.
Qed.



(** ** The strategies *)

Lemma or_None_nonempty (s : string) : or_None s <> Some "".
Proof. destruct s; discriminate. Qed.

(** X12. A record of the fast parser never holds an empty make or model;
    it holds coordinates only when the header has both the latitude and the
    longitude tag, so one tag alone gives neither; and its datetime is
    [EXIF DateTimeOriginal] when that tag is present, else
    [Image DateTime]. *)
Theorem exifread_extract_spec (w : World) (p : Path) (m : PhotoMeta.t) :
  _exifread_extract w p = Some m ->
  exists tags,
    exifread_process_file w p = Ok tags
    /\ PhotoMeta.make m <> Some "" /\ PhotoMeta.model m <> Some ""
    /\ (get tags "GPS GPSLatitude" = None
        \/ get tags "GPS GPSLongitude" = None ->
        PhotoMeta.lat m = None /\ PhotoMeta.lon m = None)
    /\ (forall t, get tags "EXIF DateTimeOriginal" = Some t ->
                  PhotoMeta.datetime m = Some (printable t))
    /\ (get tags "EXIF DateTimeOriginal" = None ->
        PhotoMeta.datetime m
        = option_map printable (get tags "Image DateTime")).
Proof.
  unfold _exifread_extract, _exifread_extract_body, open_file.
  destruct (String.eqb (name p) ""); [discriminate|].
  destruct (exifread_process_file w p) as [tags|]; [|discriminate].
  unfold rbind, try_except. intro H. exists tags. split; [reflexivity|].
  destruct (get tags "GPS GPSLatitude") as [la|],
           (get tags "GPS GPSLongitude") as [lo|];
    cbn in H; inversion H; subst; clear H; cbn;
    (split; [apply or_None_nonempty|]);
    (split; [apply or_None_nonempty|]);
    (split; [intros [E | E]; try discriminate E; split; reflexivity|]);
    (split; [intros t ->; reflexivity|]);
    intros ->; destruct (get tags "Image DateTime"); reflexivity.
Qed.

(** X13. For a photo the decoder can read: when [GPSInfo] is a truthy
    value that is no dictionary, the fallback answers [None] and the
    datetime, make and model of the photo are lost with it. Otherwise it
    returns a record for the same path whose [extra] is empty or holds only
    the altitude; an altitude with a zero denominator is left out and the
    record is still returned; without GPS data the record has no
    coordinates; and an empty make, model or datetime is turned into
    [None]. *)
Theorem pillow_extract_spec (w : World) (p : Path) (data : PilExif) :
  name p <> "" ->
  pil_getexif w p = Ok data ->
  (GPSInfo data = GpsNotDict -> _pillow_extract w p = None)
  /\ (GPSInfo data <> GpsNotDict ->
      exists pm,
        _pillow_extract w p = Some pm
        /\ PhotoMeta.path pm = p
        /\ (PhotoMeta.extra pm = []
            \/ exists a, PhotoMeta.extra pm = [("altitude_m", a)])
        /\ (forall g num den,
              GPSInfo data = GpsDict g -> GPSAltitude g = Some (num, den) ->
              den == 0 -> PhotoMeta.extra pm = [])
        /\ (GPSInfo data = GpsAbsent ->
            PhotoMeta.lat pm = None /\ PhotoMeta.lon pm = None)
        /\ PhotoMeta.make pm <> Some "" /\ PhotoMeta.model pm <> Some ""
        /\ PhotoMeta.datetime pm <> Some "").
Proof.
  intros Hn Hd.
  assert (Hs : forall v, str_if v <> Some "").
  { intros [[|c s']|]; discriminate. }
  unfold _pillow_extract, _pillow_extract_body, open_file.
  rewrite (name_eqb_false p Hn), Hd. unfold rbind, try_except.
  split; [intros ->; reflexivity|]. intro Hg.
  destruct (GPSInfo data) as [|g|] eqn:Eg; [| |now contradiction Hg];
    cbn; eexists; (split; [reflexivity|]);
    cbn [PhotoMeta.path PhotoMeta.lat PhotoMeta.lon PhotoMeta.datetime
         PhotoMeta.make PhotoMeta.model PhotoMeta.extra];
    (split; [reflexivity|]).
  - split; [now left|].
    split; [discriminate|].
    split; [intros _; split; reflexivity|].
    split; [apply Hs | split; apply Hs].
  - split; [exact (altitude_extra_cases (Some g))|].
    split.
    { intros g' num den Hg' Ha Hz. inversion Hg'; subst.
      unfold altitude_extra. now rewrite Ha, (truediv_zero num den Hz). }
    split; [discriminate|].
    split; [apply Hs | split; apply Hs].
Qed.

(** X14. The two conversions agree on three components: ratio strings
    that denote the quotients of three pairs convert as the pairs do. They
    differ on longer input: [dms_to_decimal] converts the first three
    components of a longer list whose denominators are all nonzero, while
    [_ratios_to_decimal] answers [None] for more than three components. *)
Theorem conversions_agree_on_three :
  (forall s1 s2 s3 n1 d1 n2 d2 n3 d3 ref,
      to_float s1 = truediv n1 d1 ->
      to_float s2 = truediv n2 d2 ->
      to_float s3 = truediv n3 d3 ->
      _ratios_to_decimal [s1; s2; s3] ref
      = dms_to_decimal [(n1, d1); (n2, d2); (n3, d3)] ref)
  /\ (forall a b c rest ref,
        (forall nd, In nd (a :: b :: c :: rest) -> ~ snd nd == 0) ->
        dms_to_decimal (a :: b :: c :: rest) ref
        = dms_to_decimal [a; b; c] ref)
  /\ (forall parts ref,
        (3 < List.length parts)%nat -> _ratios_to_decimal parts ref = None).
Proof.
  split; [|split].
  - intros s1 s2 s3 n1 d1 n2 d2 n3 d3 ref H1 H2 H3.
    unfold _ratios_to_decimal, _ratios_to_decimal_body, dms_to_decimal,
      dms_to_decimal_body. simpl. rewrite H1, H2, H3.
    destruct (truediv n1 d1); [|reflexivity].
    destruct (truediv n2 d2); [|reflexivity].
    destruct (truediv n3 d3); reflexivity.
  - intros [n1 d1] [n2 d2] [n3 d3] rest ref H.
    assert (Hrest : exists ys,
               comprehension (fun nd => truediv (fst nd) (snd nd)) rest
               = Ok ys).
    { assert (Hr : forall nd, In nd rest -> ~ snd nd == 0)
        by (intros nd Hin; apply H; now do 3 right).
      clear H. induction rest as [|[n d] rest IH]; [now exists []|].
      destruct IH as [ys Hys]; [intros nd Hin; apply Hr; now right|].
      simpl. rewrite (truediv_ok n d (Hr (n, d) (or_introl eq_refl))), Hys.
      eexists. reflexivity. }
    destruct Hrest as [ys Hys].
    unfold dms_to_decimal, dms_to_decimal_body. simpl.
    rewrite (truediv_ok n1 d1 (H (n1, d1) (or_introl eq_refl))).
    rewrite (truediv_ok n2 d2 (H (n2, d2) (or_intror (or_introl eq_refl)))).
    rewrite (truediv_ok n3 d3
               (H (n3, d3) (or_intror (or_intror (or_introl eq_refl))))).
    rewrite Hys. reflexivity.
  - intros parts ref H. unfold _ratios_to_decimal, _ratios_to_decimal_body.
    destruct (comprehension to_float parts) as [fs|e] eqn:E; [|reflexivity].
    apply comprehension_length in E.
    destruct fs as [|f0 [|f1 [|f2 [|f3 fs]]]]; simpl in *;
      try reflexivity; lia.
Qed.

(** X15. The sentinel filter either returns its pair unchanged or answers
    [(None, None)], and filtering a second time changes nothing. *)
Theorem drop_if_zero_coord_idempotent (lat lon : option Q) :
  (_drop_if_zero_coord lat lon = (lat, lon)
   \/ _drop_if_zero_coord lat lon = (None, None))
  /\ _drop_if_zero_coord (fst (_drop_if_zero_coord lat lon))
                         (snd (_drop_if_zero_coord lat lon))
     = _drop_if_zero_coord lat lon.
Proof.
  unfold _drop_if_zero_coord.
  destruct lat as [la|], lon as [lo|]; simpl; try (split; [now left|reflexivity]).
  destruct (Qlt_bool (Qabs la) eps && Qlt_bool (Qabs lo) eps)%bool eqn:E;
    simpl; [split; [now right | reflexivity]|].
  rewrite E. split; [now left | reflexivity].
Qed.

(** X16. [pick_latlon] converts the two fields one by one when both
    conversions succeed, so a missing field leaves the other in place; when
    either conversion raises both coordinates are [None]. A conversion
    raises exactly for a list, an object, a string that is not a number,
    and an integer beyond the float range. Booleans, numeric strings and
    integers within the range are accepted as numbers. *)
Theorem pick_latlon_spec (d : list (string * json)) :
  (forall lat lon,
      float_or_None (jget d "latitude") = Ok lat ->
      float_or_None (jget d "longitude") = Ok lon ->
      pick_latlon d = (lat, lon))
  /\ (forall e,
        float_or_None (jget d "latitude") = Raise e
        \/ float_or_None (jget d "longitude") = Raise e ->
        pick_latlon d = (None, None))
  /\ (forall v,
        (exists e, float_or_None v = Raise e)
        <-> (exists l, v = JArr l) \/ (exists o, v = JObj o)
            \/ (exists s, v = JStr s /\ float_of_str s = None)
            \/ (exists z, v = JInt z /\ float_overflow z = true))
  /\ float_or_None JNull = Ok None
  /\ float_or_None (JBool true) = Ok (Some 1)
  /\ (forall s q, float_of_str s = Some q ->
                  float_or_None (JStr s) = Ok (Some q))
  /\ (forall z, float_overflow z = false ->
                float_or_None (JInt z) = Ok (Some (inject_Z z)))
  /\ (forall q, float_or_None (JNum q) = Ok (Some q)).
Proof.
  split; [|split; [|split; [|split; [|split; [|split; [|split]]]]]];
    try reflexivity.
  - intros lat lon Ha Ho. unfold pick_latlon. now rewrite Ha, Ho.
  - intros e [H | H]; unfold pick_latlon; rewrite H; [reflexivity|].
    destruct (float_or_None (jget d "latitude")); reflexivity.
  - intro v. split.
    + intros [e H]. destruct v as [| b | z | q | s | l | o];
        try discriminate H.
      * right. right. right. exists z. split; [reflexivity|].
        unfold float_or_None, float_json in H.
        destruct (float_overflow z); [reflexivity | discriminate].
      * right. right. left. exists s. split; [reflexivity|].
        unfold float_or_None, float_json, float_str in H.
        destruct (float_of_str s); [discriminate | reflexivity].
      * left. now exists l.
      * right. left. now exists o.
    + intros [[l ->] | [[o ->] | [[s [-> H]] | [z [-> H]]]]];
        [exists TypeError | exists TypeError | exists ValueError
        | exists OverflowError];
        try reflexivity.
      * unfold float_or_None, float_json, float_str. now rewrite H.
      * unfold float_or_None, float_json. now rewrite H.
  - intros s q H. unfold float_or_None, float_json, float_str. now rewrite H.
  - intros z H. unfold float_or_None, float_json. now rewrite H.
Qed.

(** X17. For a photo whose name has no extension the two sidecar
    candidates are one and the same file, [name + ".json"]: the reader
    answers with its triple when it counts, with [(None, None, None)] when
    it is skipped, and raises when its existence check raises. *)
Theorem candidates_coincide (w : World) (p : Path) :
  name p <> "" -> suffix p = "" ->
  let c := mkPath (parent p) (name p ++ ".json") in
  candidates p = Ok [c; c]
  /\ (forall t, counts w c t -> _read_takeout_sidecar w p = Ok t)
  /\ (skipped w c -> _read_takeout_sidecar w p = Ok (None, None, None))
  /\ (forall e, fs_exists w c = Raise e ->
                _read_takeout_sidecar w p = Raise e).
Proof.
  intros Hn Hs c.
  assert (E : stem p = name p).
  { pose proof (stem_suffix p) as H. now rewrite Hs, append_empty_r in H. }
  pose proof (candidates_named p Hn) as Hc. rewrite E in Hc. fold c in Hc.
  assert (Hr : _read_takeout_sidecar w p = scan_candidates w [c; c])
    by (unfold _read_takeout_sidecar; now rewrite Hc).
  split; [exact Hc|]. rewrite Hr. split; [|split].
  - intros t Ht. now apply scan_counts.
  - intro Hk. now rewrite !(scan_skipped _ _ _ Hk).
  - intros e He. now rewrite scan_candidates_cons, He.
Qed.

(** X18. A [photoTakenTime] object hides the top-level [creationTime] and
    [creationTimestamp]: when it has no usable [formatted] and no
    [timestamp], the document has no datetime, and without a complete
    coordinate pair the reader passes it over, whatever [creationTime]
    holds. An empty [formatted] falls back to [timestamp]. *)
Theorem photoTakenTime_hides_creationTime (d ptt : list (string * json)) :
  jget d "photoTakenTime" = JObj ptt ->
  truthy (jget ptt "formatted") = false ->
  pick_dt d = jget ptt "timestamp"
  /\ (jget ptt "timestamp" = JNull ->
      first_complete d geo_keys = None ->
      read_data (JObj d) = None).
Proof.
  intros Hp Hf.
  assert (E : pick_dt d = jget ptt "timestamp")
    by (unfold pick_dt, py_or; now rewrite Hp, Hf).
  split; [exact E|]. intros Ht Hc. unfold read_data. rewrite E, Ht.
  pose proof (search_keys_incomplete d geo_keys None None Hc
                (or_introl eq_refl)) as H.
  destruct (search_keys d geo_keys None None) as [lat lon]. simpl in H.
  destruct H as [-> | ->]; [reflexivity|]. now destruct lat.
Qed.

End ExifLoader.

(** * The claims on the sample inputs *)

(** C1 fails as stated: a header with a readable latitude and a longitude
    written as 0/0, and no sidecar, gives a record with a latitude and no
    longitude. *)
Lemma unpaired_record_counterexample :
  let r := PhotoMeta.mk photo (Some (11125560 # 216000)) None None None None [] in
  outcome (read_photo_meta sample_float sample_str_float sample_str_json
             world_half_gps photo) = Ok r
  /\ ~ paired (PhotoMeta.lat r) (PhotoMeta.lon r).
Proof. split; [reflexivity | discriminate]. Qed.

(** The amended C1 on the photo with a complete header. *)
Lemma paired_sources_give_paired_record_witness :
  paired (Some (11125560 # 216000)) (Some (-27540 # 216000)).
Proof.
  apply (paired_sources_give_paired_record
           sample_float sample_str_float sample_str_json world_full photo
           (PhotoMeta.mk photo (Some (11125560 # 216000))
              (Some (-27540 # 216000)) (Some "2020:01:02 03:04:05")
              (Some "Canon") (Some "EOS") [])).
  - reflexivity.
  - intros m H. vm_compute in H. inversion H. reflexivity.
  - intros s_lat s_lon s_dt H. vm_compute in H. inversion H. reflexivity.
  - intros pm H. vm_compute in H. inversion H. reflexivity.
Defined.

(** C2 on a photo from which nothing can be read: the fallback is invoked. *)
Lemma pillow_invoked_iff_witness :
  invoked Pillow
    (read_photo_meta sample_float sample_str_float sample_str_json
       world_nothing photo).
Proof.
  apply (proj1 (pillow_invoked_iff sample_float sample_str_float
                  sample_str_json world_nothing photo)).
  split; [reflexivity|].
  exists None, None, None. split; [reflexivity | left; reflexivity].
Defined.

(** C3 fails as stated: the first candidate exists and decodes, to an empty
    object whose triple is empty, and the reader answers with the position
    held by the second candidate. *)
Lemma first_decoded_sidecar_counterexample :
  let c1 := mkPath "album" "IMG_1.jpg.json" in
  fs_exists world_two_sidecars c1 = Ok true
  /\ fs_load_json world_two_sidecars c1 = Ok (JObj [])
  /\ data_triple sample_float sample_str_json (JObj []) = (None, None, None)
  /\ _read_takeout_sidecar sample_float sample_str_json world_two_sidecars photo
     = Ok (Some 1, Some 2, None).
Proof. repeat split. Qed.

(** The amended C3 on the photo with two sidecars: the first is skipped,
    the second counts. *)
Lemma read_takeout_sidecar_spec_witness :
  _read_takeout_sidecar sample_float sample_str_json world_two_sidecars photo
  = Ok (Some 1, Some 2, None).
Proof.
  assert (H : name photo <> "") by discriminate.
  apply (proj1 (proj2 (proj2 (read_takeout_sidecar_spec sample_float
                                 sample_str_json world_two_sidecars photo H)))).
  - right. split; [reflexivity|]. right. exists (JObj []).
    split; [reflexivity|]. intros d Hd. inversion Hd; subst. split.
    + intros [lat [lon Hc]]. discriminate Hc.
    + intro Hx. now apply Hx.
  - split; [reflexivity|]. exists [("geoData", geo 1 2)].
    split; [reflexivity|]. split; [|reflexivity].
    left. exists 1, 2. reflexivity.
Defined.

(** C4 on a pair below the threshold and on (0, 5). *)
Lemma drop_if_zero_coord_spec_witness :
  _drop_if_zero_coord (Some (1 # 10000000000)) (Some 0) = (None, None)
  /\ _drop_if_zero_coord (Some 0) (Some 5) = (Some 0, Some 5).
Proof.
  pose proof (drop_if_zero_coord_spec sample_float sample_str_float
                sample_str_json) as [Hdrop [Hkeep _]].
  split.
  - apply Hdrop; reflexivity.
  - apply Hkeep. right. discriminate.
Defined.

(** C5 on the photo with a complete header, a sidecar and other EXIF data
    behind the decoder. *)
Lemma complete_header_is_kept_witness :
  outcome (read_photo_meta sample_float sample_str_float sample_str_json
             world_full photo)
  = Ok (PhotoMeta.mk photo (Some (11125560 # 216000))
          (Some (-27540 # 216000)) (Some "2020:01:02 03:04:05")
          (Some "Canon") (Some "EOS") []).
Proof.
  refine (proj1 (proj2 (complete_header_is_kept sample_float sample_str_float
                          sample_str_json world_full photo _
                          (11125560 # 216000) (-27540 # 216000)
                          "2020:01:02 03:04:05" "Canon" "EOS"
                          eq_refl eq_refl eq_refl eq_refl eq_refl eq_refl _))
            (Some 3, Some 4, Some "1577934245") eq_refl).
  intros [H _]. vm_compute in H. discriminate H.
Defined.

(** C6 on a sidecar that lists [geoData] before [geoDataExif]. *)
Lemma geoDataExif_has_priority_witness :
  search_keys sample_float sidecar_both geo_keys None None = (Some 3, Some 4)
  /\ _read_takeout_sidecar sample_float sample_str_json world_full photo
     = Ok (Some 3, Some 4, Some "1577934245").
Proof.
  pose proof (proj2 (geoDataExif_has_priority sample_float sample_str_json)
                sidecar_both
                [("latitude", JNum 3); ("longitude", JNum 4)]
                [("latitude", JNum 1); ("longitude", JNum 2)]
                3 4 1 2 eq_refl (or_introl eq_refl) (or_introl eq_refl)
                eq_refl (or_introl eq_refl) (or_introl eq_refl))
    as [Hs [_ Hr]].
  split; [exact Hs|].
  apply (Hr world_full photo); [discriminate | reflexivity | reflexivity].
Defined.

(** C7 fails on a photo with a complete header whose name has 252 bytes:
    the name of its first sidecar candidate has 257, the existence check
    raises, and so does the resolver. *)
Lemma read_photo_meta_raises_when_exists_raises_witness :
  read_photo_meta sample_float sample_str_float sample_str_json
    world_name_max long_photo
  = ([Exifread; Sidecar], Raise OSError).
Proof.
  apply (read_photo_meta_raises_when_exists_raises sample_float
           sample_str_float sample_str_json world_name_max long_photo OSError).
  - intro H. vm_compute in H. discriminate H.
  - vm_compute. reflexivity.
Defined.

(** C8 fails as stated: 90 degrees 59 minutes 59 seconds north is a
    well-formed triple and converts to 90.9997..., above 90. *)
Lemma dms_over_limit_counterexample :
  (0 <= 90 / 1 <= ref_limit "N" /\ 0 <= 59 / 1 < 60 /\ 0 <= 59 / 1 < 60)
  /\ dms_to_decimal [(90, 1); (59, 1); (59, 1)] (Some "N")
     = Some (19655940 # 216000)
  /\ ~ Qabs (19655940 # 216000) <= 90.
Proof.
  split; [repeat split; discriminate|].
  split; [reflexivity|]. intro H. now apply H.
Qed.

(** The amended C8 on 3 degrees 30 minutes west. *)
Lemma dms_to_decimal_wellformed_witness :
  exists v,
    dms_to_decimal [(3, 1); (30, 1); (0, 1)] (Some "W") = Some v
    /\ (In "W" ["S"; "W"] -> v = - dms_value (3 / 1) (30 / 1) (0 / 1))
    /\ (In "W" ["N"; "E"] -> v = dms_value (3 / 1) (30 / 1) (0 / 1))
    /\ Qabs v == dms_value (3 / 1) (30 / 1) (0 / 1)
    /\ Qabs v < ref_limit "W" + 61 / 60
    /\ (Qabs v <= ref_limit "W"
        <-> dms_value (3 / 1) (30 / 1) (0 / 1) <= ref_limit "W").
Proof.
  apply (proj1 dms_to_decimal_wellformed 3 1 30 1 0 1 "W");
    try discriminate.
  - simpl. tauto.
  - split; discriminate.
  - split; [discriminate | reflexivity].
  - split; [discriminate | reflexivity].
Defined.

(** C9 on a zero denominator, a short list and two bad ratio strings. *)
Lemma dms_failure_is_None_witness :
  dms_to_decimal [(51, 1); (30, 0); (26, 1)] (Some "N") = None
  /\ dms_to_decimal [(51, 1); (30, 1)] (Some "N") = None
  /\ _ratios_to_decimal sample_float ["51"; "30/0"; "26"] (Some "N") = None
  /\ _ratios_to_decimal sample_float ["51"; "x/2"; "26"] (Some "N") = None.
Proof.
  destruct (dms_failure_is_None sample_float)
    as [_ [Hlen [Hzero [_ [_ [Hpart [Hden [Hbad _]]]]]]]].
  split; [|split; [|split]].
  - apply (Hzero _ _ 30 0); [simpl; tauto | reflexivity].
  - apply Hlen. simpl. lia.
  - apply (Hpart _ _ "30/0" ZeroDivisionError); [simpl; tauto|].
    apply (Hden "30/0" "30" "0" 30 0); reflexivity.
  - apply (Hpart _ _ "x/2" ValueError); [simpl; tauto|].
    apply (Hbad "x/2" "x" "2"); [reflexivity | reflexivity | left; reflexivity].
Defined.

(** C10 on a latitude under [geoDataExif] and a longitude under [geoData]. *)
Lemma partial_pair_is_replaced_witness :
  search_keys sample_float sidecar_partial geo_keys None None
  = pick_latlon sample_float [("longitude", JNum 2)].
Proof.
  apply (proj1 (proj1 (partial_pair_is_replaced sample_float)
                  sidecar_partial [("latitude", JNum 1)] eq_refl eq_refl)
           [("longitude", JNum 2)] eq_refl).
  right. intros g3 H. discriminate H.
Defined.

(** * The further properties on the sample inputs *)

(** X1 on two points. *)
Lemma bounds_from_points_spec_witness :
  1 <= 3 <= 3 /\ 2 <= 2 <= 5.
Proof.
  destruct (bounds_from_points_spec [(3, 2); (1, 5)]) as [b [Hb [_ H]]].
  vm_compute in Hb. inversion Hb; subst.
  destruct (H _ _ _ _ eq_refl) as [Hin _].
  apply (Hin 3 2). now left.
Defined.

(** X3 on the sample directory, scanned without a limit. *)
Lemma scanned_photo_is_resolved_witness :
  In (lower (suffix (mkPath "album" "B.PNG"))) allowed_exts
  /\ name (mkPath "album" "B.PNG") <> "".
Proof.
  destruct (scanned_photo_is_resolved sample_float sample_str_float
              sample_str_json world_nothing sample_is_file
              sample_entries [] true 0 (mkPath "album" "B.PNG"))
    as [_ [_ [H1 [H2 _]]]]; [vm_compute; tauto|].
  split; assumption.
Defined.

(** X4 on a repository with one record. *)
Lemma repository_points_witness :
  In (1, 2)
     (PhotoRepository.points
        (PhotoRepository.add PhotoRepository.init
           (PhotoMeta.mk photo (Some 1) (Some 2) None None None []))).
Proof.
  apply (proj1 (proj2 (proj2 repository_points))).
  eexists. split; [now left|]. split; reflexivity.
Defined.

(** X6 on a record whose [extra] tries to set [thumb] and [datetime]. *)
Lemma props_of_spec_witness :
  get (props_of (PhotoMeta.mk photo None None (Some "d") None None
                   [("thumb", "x"); ("datetime", "y")])
                (Some "thumbs/t.jpg") None) "datetime"
  = Some (Some "y").
Proof.
  apply (proj1 (proj2 (proj2 (props_of_spec _ _ _))));
    try discriminate.
  - repeat constructor; simpl; intuition discriminate.
  - simpl. tauto.
Defined.

(** X7 on the photo with a complete header and a sidecar. *)
Lemma header_fields_win_witness :
  exists lat lon,
    read_photo_meta sample_float sample_str_float sample_str_json
      world_full photo
    = ([Exifread; Sidecar],
       Ok (PhotoMeta.mk photo lat lon (Some "2020:01:02 03:04:05")
             (Some "Canon") (Some "EOS") []))
    /\ (lat, lon)
       = _drop_if_zero_coord (Some (11125560 # 216000))
                             (Some (-27540 # 216000)).
Proof.
  apply (header_fields_win sample_float sample_str_float sample_str_json
           world_full photo
           (PhotoMeta.mk photo (Some (11125560 # 216000))
              (Some (-27540 # 216000)) (Some "2020:01:02 03:04:05")
              (Some "Canon") (Some "EOS") [])
           (Some 3) (Some 4) (Some "1577934245"));
    reflexivity.
Defined.

(** X8 on the photo with two sidecars and no readable header. *)
Lemma sidecar_position_skips_pillow_witness :
  exists lat lon,
    read_photo_meta sample_float sample_str_float sample_str_json
      world_two_sidecars photo
    = ([Exifread; Sidecar], Ok (PhotoMeta.mk photo lat lon None None None []))
    /\ (lat, lon) = _drop_if_zero_coord (Some 1) (Some 2).
Proof.
  apply (sidecar_position_skips_pillow sample_float sample_str_float
           sample_str_json world_two_sidecars photo 1 2 None);
    reflexivity.
Defined.

(** X9 on the photo that only the decoder can read. *)
Lemma resolved_record_props_witness :
  get (props_of (PhotoMeta.mk photo None None (Some "2021:05:06 07:08:09")
                   None None [])
                None None) "path"
  = Some (Some "IMG_1.jpg").
Proof.
  apply (resolved_record_props sample_float sample_str_float sample_str_json
           world_bad_altitude photo _ None None).
  reflexivity.
Defined.

(** X10 on a scan of two photos with a complete header. *)
Lemma main_loop_counts_witness :
  total (mkMain
           (PhotoRepository.mk
              [PhotoMeta.mk photo (Some (11125560 # 216000))
                 (Some (-27540 # 216000)) (Some "2020:01:02 03:04:05")
                 (Some "Canon") (Some "EOS") [];
               PhotoMeta.mk (mkPath "album" "B.PNG")
                 (Some (11125560 # 216000)) (Some (-27540 # 216000))
                 (Some "2020:01:02 03:04:05") (Some "Canon") (Some "EOS") []]
              [])
           2 2 0)
  = List.length [photo; mkPath "album" "B.PNG"].
Proof.
  apply (main_loop_counts sample_float sample_str_float sample_str_json
           world_full [photo; mkPath "album" "B.PNG"]).
  reflexivity.
Defined.

(** X12 on the photo with a complete header. *)
Lemma exifread_extract_spec_witness :
  exists tags,
    exifread_process_file world_full photo = Ok tags
    /\ Some "Canon" <> Some "" /\ Some "EOS" <> Some ""
    /\ (get tags "GPS GPSLatitude" = None
        \/ get tags "GPS GPSLongitude" = None ->
        Some (11125560 # 216000) = None /\ Some (-27540 # 216000) = None)
    /\ (forall t, get tags "EXIF DateTimeOriginal" = Some t ->
                  Some "2020:01:02 03:04:05" = Some (printable t))
    /\ (get tags "EXIF DateTimeOriginal" = None ->
        Some "2020:01:02 03:04:05"
        = option_map printable (get tags "Image DateTime")).
Proof.
  apply (exifread_extract_spec sample_float world_full photo
           (PhotoMeta.mk photo (Some (11125560 # 216000))
              (Some (-27540 # 216000)) (Some "2020:01:02 03:04:05")
              (Some "Canon") (Some "EOS") [])).
  reflexivity.
Defined.

(** X13 on the photo whose altitude has a zero denominator. *)
Lemma pillow_extract_spec_witness :
  exists pm,
    _pillow_extract sample_str_float world_bad_altitude photo = Some pm
    /\ PhotoMeta.extra pm = [] /\ PhotoMeta.make pm <> Some "".
Proof.
  destruct (pillow_extract_spec sample_str_float world_bad_altitude photo
              (mkExif (GpsDict (mkGps None None None None (Some (100, 0))))
                 None (Some "2021:05:06 07:08:09") (Some "") None))
    as [_ H]; [discriminate | reflexivity |].
  destruct H as [pm [H1 [_ [_ [H2 [_ [H3 _]]]]]]]; [discriminate|].
  exists pm. split; [exact H1|]. split; [|exact H3].
  apply (H2 (mkGps None None None None (Some (100, 0))) 100 0);
    reflexivity.
Defined.

(** X14 on the London triple, as strings and as pairs. *)
Lemma conversions_agree_on_three_witness :
  _ratios_to_decimal sample_float ["51"; "30/1"; "26"] (Some "N")
  = dms_to_decimal [(51, 1); (30, 1); (26, 1)] (Some "N")
  /\ dms_to_decimal [(51, 1); (30, 1); (26, 1); (7, 1)] (Some "N")
     = dms_to_decimal [(51, 1); (30, 1); (26, 1)] (Some "N")
  /\ _ratios_to_decimal sample_float ["51"; "30"; "26"; "7"] (Some "N") = None.
Proof.
  destruct (conversions_agree_on_three sample_float) as [H1 [H2 H3]].
  split; [|split].
  - apply H1.
    + vm_compute. reflexivity.
    + vm_compute. reflexivity.
    + vm_compute. reflexivity.
  - apply H2. intros nd [<- | [<- | [<- | [<- | []]]]]; discriminate.
  - apply H3. simpl. lia.
Defined.

(** X16 on an object with a numeric latitude and a list as longitude. *)
Lemma pick_latlon_spec_witness :
  pick_latlon sample_float [("latitude", JNum 1); ("longitude", JArr [])]
  = (None, None)
  /\ pick_latlon sample_float [("latitude", JNum 1)] = (Some 1, None).
Proof.
  split.
  - apply (proj1 (proj2 (pick_latlon_spec sample_float _)) TypeError).
    right. reflexivity.
  - apply (proj1 (pick_latlon_spec sample_float _)); reflexivity.
Defined.

(** X17 on a photo without extension. *)
Lemma candidates_coincide_witness :
  candidates (mkPath "album" "IMG_2")
  = Ok [mkPath "album" "IMG_2.json"; mkPath "album" "IMG_2.json"].
Proof.
  apply (candidates_coincide sample_float sample_str_json world_nothing
           (mkPath "album" "IMG_2")); [discriminate | reflexivity].
Defined.

(** X18 on the sidecar with an empty [photoTakenTime]. *)
Lemma photoTakenTime_hides_creationTime_witness :
  read_data sample_float sample_str_json (JObj sidecar_hidden_time) = None.
Proof.
  apply (proj2 (photoTakenTime_hides_creationTime sample_float
                  sample_str_json sidecar_hidden_time [] eq_refl eq_refl));
    reflexivity.
Defined.
